(** * ODE solver GUI (script.py): a shallow embedding and its properties

    The program is one class, [ODEGUI(tk.Tk)], whose methods read the text
    of a few entry widgets, hand the right-hand side of the equation to
    sympy, integrate with scipy's [solve_ivp] and redraw a matplotlib axes.

    The embedding keeps that shape:
    - Python strings are [string]s (code points below 256), with [split],
      [strip] and [in] written out;
    - exceptions are values of [exn]; methods run in a state-and-exception
      monad [M] over the widget state [GUI], where a raised exception keeps
      the mutations made so far, as in Python;
    - the third-party libraries (float parsing, sympy's parser, numpy's
      arithmetic, scipy's integrator) are the fields of the class [PyLibs]
      over the type [F] of floats; the general theorems hold for all
      instances, and [Ref] is one instance on which the methods run by
      computation;
    - a method call [self.name(...)] looks [name] up in the table of the
      methods that the class body defines;
    - the field [log] of the state is ghost: it records the library calls
      and the [except] clauses entered, so that "no integration is
      attempted" and "this error reached that handler" can be stated. *)

From Stdlib Require Import String Ascii List Bool Arith ZArith Lia DecimalString.
Import ListNotations.
Local Open Scope string_scope.

(** ** Python strings *)

Module PyStr.

(** [str.isspace] on one code point below 256. *)
Definition is_space (c : ascii) : bool :=
  let n := nat_of_ascii c in
  (((9 <=? n) && (n <=? 13)) || ((28 <=? n) && (n <=? 32))
   || (n =? 133) || (n =? 160))%nat.

(** [c in s] for a one-character [c]. *)
Fixpoint contains (c : ascii) (s : string) : bool :=
  match s with
  | EmptyString => false
  | String d r => Ascii.eqb d c || contains c r
  end.

(** [s.split(sep)] for a one-character separator: every occurrence
    splits, and the result is never empty. *)
Fixpoint split (sep : ascii) (s : string) : list string :=
  match s with
  | EmptyString => [EmptyString]
  | String c r =>
      if Ascii.eqb c sep then EmptyString :: split sep r
      else match split sep r with
           | [] => [String c EmptyString]
           | w :: ws => String c w :: ws
           end
  end.

Fixpoint lstrip (s : string) : string :=
  match s with
  | EmptyString => EmptyString
  | String c r => if is_space c then lstrip r else s
  end.

Fixpoint rstrip (s : string) : string :=
  match s with
  | EmptyString => EmptyString
  | String c r =>
      match rstrip r with
      | EmptyString => if is_space c then EmptyString else String c EmptyString
      | r' => String c r'
      end
  end.

(** [s.strip()] *)
Definition strip (s : string) : string := rstrip (lstrip s).

(** The text that follows the first occurrence of [c] in [s]
    ([s.split(c, 1)[1]] when [c in s]); [None] when there is none. *)
Fixpoint after_first (c : ascii) (s : string) : option string :=
  match s with
  | EmptyString => None
  | String d r => if Ascii.eqb d c then Some r else after_first c r
  end.

(** Number of occurrences of [c] in [s] ([s.count(c)]). *)
Fixpoint count (c : ascii) (s : string) : nat :=
  match s with
  | EmptyString => 0%nat
  | String d r => ((if Ascii.eqb d c then 1 else 0) + count c r)%nat
  end.

(** Truthiness of a string: [bool(s)]. *)
Definition truthy (s : string) : bool :=
  match s with EmptyString => false | _ => true end.

Definition backslash : ascii := ascii_of_nat 92.
Definition single_quote : ascii := ascii_of_nat 39.
Definition double_quote : ascii := ascii_of_nat 34.

Definition hex_digit (n : nat) : ascii :=
  if (n <? 10)%nat then ascii_of_nat (48 + n) else ascii_of_nat (87 + n).

(** [str.isprintable] on one code point below 256. *)
Definition is_printable (c : ascii) : bool :=
  let n := nat_of_ascii c in
  (((32 <=? n) && (n <=? 126)) || ((161 <=? n) && negb (n =? 173)))%nat.

(** One character inside [repr(s)] when [q] is the quote around it. *)
Definition repr_char (q c : ascii) : string :=
  let n := nat_of_ascii c in
  if Ascii.eqb c backslash || Ascii.eqb c q
  then String backslash (String c EmptyString)
  else if (n =? 9)%nat then String backslash (String "t" EmptyString)
  else if (n =? 10)%nat then String backslash (String "n" EmptyString)
  else if (n =? 13)%nat then String backslash (String "r" EmptyString)
  else if is_printable c then String c EmptyString
  else String backslash
         (String "x" (String (hex_digit (n / 16))
                        (String (hex_digit (n mod 16)) EmptyString))).

Fixpoint repr_body (q : ascii) (s : string) : string :=
  match s with
  | EmptyString => EmptyString
  | String c r => append (repr_char q c) (repr_body q r)
  end.

(** [repr(s)]: double quotes when the text has a single quote and no
    double quote, single quotes otherwise. *)
Definition repr (s : string) : string :=
  let q := if contains single_quote s && negb (contains double_quote s)
           then double_quote else single_quote in
  String q (append (repr_body q s) (String q EmptyString)).

End PyStr.

(** ** Exceptions *)

(** The exception classes that can travel through the program.
    [SympifyError] is a subclass of [ValueError] in sympy; every other
    library exception is [OtherException cls msg]. *)
Inductive exn : Type :=
| ValueError (msg : string)
| SympifyError (msg : string)
| AttributeError (msg : string)
| NameError (msg : string)
| IndexError (msg : string)
| OtherException (cls msg : string).

(** [isinstance(e, ValueError)], what [except ValueError] tests. *)
Definition is_ValueError (e : exn) : bool :=
  match e with
  | ValueError _ | SympifyError _ => true
  | _ => false
  end.

(** [str(e)] *)
Definition str_exn (e : exn) : string :=
  match e with
  | ValueError m | SympifyError m | AttributeError m | NameError m
  | IndexError m | OtherException _ m => m
  end.

Inductive outcome (A : Type) : Type :=
| Returns (a : A)
| Raises (e : exn).
Arguments Returns {A} a.
Arguments Raises {A} e.

(** ** Symbolic expressions and the integrator *)

Section Syntax.
Variable F : Type.

(** sympy's expression trees, as far as the program meets them:
    numbers, symbols, [Add], [Mul], [Pow] and applied functions. *)
Inductive Expr : Type :=
| Num (v : F)
| Sym (name : string)
| Add (a b : Expr)
| Mul (a b : Expr)
| Pow (a b : Expr)
| App (f : string) (a : Expr).

(** Lookup in a Python dict kept in insertion order. *)
Fixpoint dict_get {V : Type} (k : string) (d : list (string * V)) : option V :=
  match d with
  | [] => None
  | (k', v) :: r => if String.eqb k k' then Some v else dict_get k r
  end.

(** [expr.subs(d)] for a dict from symbol names to floats. *)
Fixpoint subs (d : list (string * F)) (e : Expr) : Expr :=
  match e with
  | Num v => Num v
  | Sym n => match dict_get n d with Some v => Num v | None => Sym n end
  | Add a b => Add (subs d a) (subs d b)
  | Mul a b => Mul (subs d a) (subs d b)
  | Pow a b => Pow (subs d a) (subs d b)
  | App f a => App f (subs d a)
  end.

(** The function [lambdify((t, y), e, 'numpy')] returns. *)
Inductive Callable : Type :=
| Lambdified (body : Expr).

Definition lambdify (e : Expr) : Callable := Lambdified e.

(** What a call of the generated function gives back: a number, or,
    when the expression still holds a symbol that [lambdify] has bound to
    itself, a sympy object. *)
Inductive value : Type :=
| Number (v : F)
| Symbolic (e : Expr).

Definition reify (v : value) : Expr :=
  match v with
  | Number x => Num x
  | Symbolic e => e
  end.

(** What [solve_ivp] does with the right-hand side it is given: it
    returns a result, raises on its own account, or calls [fun(t, y)]
    and goes on with what the call gave.  In [Result ts y], [ts] is
    [sol.t] and [y] is [sol.y] as the list of its rows; with no output
    point both are empty. *)
Inductive Integrator : Type :=
| Result (ts : list F) (y : list (list F))
| LibRaise (e : exn)
| Eval (t y : F) (k : value -> Integrator).

End Syntax.

Arguments Num {F} v.
Arguments Sym {F} name.
Arguments Add {F} a b.
Arguments Mul {F} a b.
Arguments Pow {F} a b.
Arguments App {F} f a.
Arguments dict_get {V} k d.
Arguments subs {F} d e.
Arguments Lambdified {F} body.
Arguments lambdify {F} e.
Arguments Number {F} v.
Arguments Symbolic {F} e.
Arguments reify {F} v.
Arguments Result {F} ts y.
Arguments LibRaise {F} e.
Arguments Eval {F} t y k.

(** ** The libraries *)

(** [F] stands for Python floats and numpy values. *)
Class PyLibs (F : Type) : Type := {
  (** [float(s)]: [None] stands for the [ValueError] it raises *)
  float_of : string -> option F;
  (** [sympify(s, locals=...)] with the names declared as symbols *)
  sympify : string -> list string -> outcome (Expr F);
  (** numpy arithmetic in the generated function *)
  fadd : F -> F -> outcome F;
  fmul : F -> F -> outcome F;
  fpow : F -> F -> outcome F;
  (** the numpy namespace the generated function resolves names in; a
      numpy function may be handed a sympy object *)
  np_fun : string -> option (value F -> outcome (value F));
  (** [np.linspace(a, b, n)] *)
  linspace : F -> F -> nat -> list F;
  (** [solve_ivp(fun, [t0, tf], [y0], t_eval=..., vectorized=True)] *)
  solve_ivp_run : F -> F -> F -> list F -> Integrator F
}.

Section Program.
Context {F : Type} {L : PyLibs F}.

(** Calling the lambdified function.  The generated code is the printed
    expression; [lambdify] puts the numpy names and the symbols of the
    expression into its namespace, so a symbol other than the arguments
    [t] and [y] evaluates to itself, arithmetic with it gives a sympy
    object and raises nothing, and a function name outside the numpy
    namespace is a global name that is missed when the call reaches it. *)
Definition arith (op : F -> F -> outcome F) (node : Expr F -> Expr F -> Expr F)
  (a b : outcome (value F)) : outcome (value F) :=
  match a with
  | Raises x => Raises x
  | Returns va =>
      match b with
      | Raises x => Raises x
      | Returns vb =>
          match va, vb with
          | Number u, Number v =>
              match op u v with
              | Returns w => Returns (Number w)
              | Raises x => Raises x
              end
          | _, _ => Returns (Symbolic (node (reify va) (reify vb)))
          end
      end
  end.

Fixpoint eval (e : Expr F) (t y : F) : outcome (value F) :=
  match e with
  | Num v => Returns (Number v)
  | Sym n =>
      if String.eqb n "t" then Returns (Number t)
      else if String.eqb n "y" then Returns (Number y)
      else Returns (Symbolic (Sym n))
  | Add a b => arith fadd Add (eval a t y) (eval b t y)
  | Mul a b => arith fmul Mul (eval a t y) (eval b t y)
  | Pow a b => arith fpow Pow (eval a t y) (eval b t y)
  | App f a =>
      match np_fun f with
      | None => Raises (NameError ("name '" ++ f ++ "' is not defined"))
      | Some g =>
          match eval a t y with
          | Raises x => Raises x
          | Returns u => g u
          end
      end
  end.

Definition call (f : Callable F) (t y : F) : outcome (value F) :=
  match f with Lambdified e => eval e t y end.

(** *** Widgets *)

(** What a button runs when it is pressed. *)
Inductive command : Type :=
| CmdSolve
| CmdClear
| CmdExamples
| CmdHelp
| CmdLoadExample (e : string) (p : list (string * string)) (i t : string).

Record Button : Type := mkButton {
  btn_text : string;
  btn_command : command
}.

Record Toplevel : Type := mkToplevel {
  win_title : string;
  win_buttons : list Button;
  win_labels : list string
}.

Record Line : Type := mkLine {
  line_x : list F;
  line_y : list F;
  line_label : string
}.

(** The matplotlib axes: its curves and decorations. *)
Record Axes : Type := mkAxes {
  ax_lines : list Line;
  ax_title : string;
  ax_xlabel : string;
  ax_ylabel : string;
  ax_grid : bool;
  ax_legend : bool
}.

(** Ghost state: the program keeps no such record and no method reads
    it.  The log notes, in order, each call of [sympify] with its text,
    each call of [solve_ivp], each [canvas.draw()], and each entry into an
    [except] clause, named by the prefix of the message it builds, with
    the exception it caught. *)
Inductive event : Type :=
| EvSympify (rhs : string)
| EvSolveIvp (t0 tf y0 : F)
| EvDraw
| EvExcept (clause : string) (e : exn).

Record GUI : Type := mkGUI {
  eq_entry : string;
  ic_entry : string;
  time_entry : string;
  param_entries : list (string * string);
  ax : Axes;
  controls : list Button;
  toplevels : list Toplevel;
  current_params : list (string * F);
  log : list event
}.

Definition set_eq_entry (v : string) (s : GUI) : GUI :=
  mkGUI v (ic_entry s) (time_entry s) (param_entries s) (ax s)
        (controls s) (toplevels s) (current_params s) (log s).
Definition set_ic_entry (v : string) (s : GUI) : GUI :=
  mkGUI (eq_entry s) v (time_entry s) (param_entries s) (ax s)
        (controls s) (toplevels s) (current_params s) (log s).
Definition set_time_entry (v : string) (s : GUI) : GUI :=
  mkGUI (eq_entry s) (ic_entry s) v (param_entries s) (ax s)
        (controls s) (toplevels s) (current_params s) (log s).
Definition set_param_entries (v : list (string * string)) (s : GUI) : GUI :=
  mkGUI (eq_entry s) (ic_entry s) (time_entry s) v (ax s)
        (controls s) (toplevels s) (current_params s) (log s).
Definition set_ax (v : Axes) (s : GUI) : GUI :=
  mkGUI (eq_entry s) (ic_entry s) (time_entry s) (param_entries s) v
        (controls s) (toplevels s) (current_params s) (log s).
Definition set_controls (v : list Button) (s : GUI) : GUI :=
  mkGUI (eq_entry s) (ic_entry s) (time_entry s) (param_entries s) (ax s)
        v (toplevels s) (current_params s) (log s).
Definition set_toplevels (v : list Toplevel) (s : GUI) : GUI :=
  mkGUI (eq_entry s) (ic_entry s) (time_entry s) (param_entries s) (ax s)
        (controls s) v (current_params s) (log s).
Definition set_current_params (v : list (string * F)) (s : GUI) : GUI :=
  mkGUI (eq_entry s) (ic_entry s) (time_entry s) (param_entries s) (ax s)
        (controls s) (toplevels s) v (log s).
Definition add_log (l : list event) (s : GUI) : GUI :=
  mkGUI (eq_entry s) (ic_entry s) (time_entry s) (param_entries s) (ax s)
        (controls s) (toplevels s) (current_params s) (log s ++ l).
Definition emit (e : event) (s : GUI) : GUI := add_log [e] s.

(** *** The monad of methods *)

Definition M (A : Type) : Type := GUI -> outcome A * GUI.

Definition ret {A} (a : A) : M A := fun s => (Returns a, s).
Definition raise {A} (e : exn) : M A := fun s => (Raises e, s).
Definition bind {A B} (m : M A) (k : A -> M B) : M B :=
  fun s => match m s with
           | (Returns a, s') => k a s'
           | (Raises e, s') => (Raises e, s')
           end.
Definition gets {A} (f : GUI -> A) : M A := fun s => (Returns (f s), s).
Definition modify (f : GUI -> GUI) : M unit := fun s => (Returns tt, f s).
Definition lift {A} (o : outcome A) : M A := fun s => (o, s).

(** [try: body  except Exception as e: handler e] *)
Definition try_except {A} (body : M A) (handler : exn -> M A) : M A :=
  fun s => match body s with
           | (Returns a, s') => (Returns a, s')
           | (Raises e, s') => handler e s'
           end.

End Program.

Arguments Line F : clear implicits.
Arguments Axes F : clear implicits.
Arguments event F : clear implicits.
Arguments GUI F : clear implicits.
Arguments M F A : clear implicits.

Declare Scope py_scope.
Delimit Scope py_scope with py.
Notation "x <- m ;; k" := (bind m (fun x => k))
  (at level 61, m at next level, right associativity) : py_scope.
Notation "m ;; k" := (bind m (fun _ => k))
  (at level 61, right associativity) : py_scope.

Local Open Scope py_scope.

(** ** The class ODEGUI *)

(** The methods that the class body defines. *)
Inductive method : Type :=
| m_init
| m_create_equation_input
| m_create_parameter_input
| m_create_plot_area
| m_create_controls
| m_clear_plot
| m_parse_equation
| m_solve
| m_show_examples
| m_show_help.

Definition class_dict : list (string * method) :=
  [ ("__init__", m_init);
    ("create_equation_input", m_create_equation_input);
    ("create_parameter_input", m_create_parameter_input);
    ("create_plot_area", m_create_plot_area);
    ("create_controls", m_create_controls);
    ("clear_plot", m_clear_plot);
    ("parse_equation", m_parse_equation);
    ("solve", m_solve);
    ("show_examples", m_show_examples);
    ("show_help", m_show_help) ].

Definition method_name (m : method) : string :=
  match m with
  | m_init => "__init__"
  | m_create_equation_input => "create_equation_input"
  | m_create_parameter_input => "create_parameter_input"
  | m_create_plot_area => "create_plot_area"
  | m_create_controls => "create_controls"
  | m_clear_plot => "clear_plot"
  | m_parse_equation => "parse_equation"
  | m_solve => "solve"
  | m_show_examples => "show_examples"
  | m_show_help => "show_help"
  end.

Definition newline : string := String (ascii_of_nat 10) EmptyString.

Section Methods.
Context {F : Type} {L : PyLibs F}.

(** [self.name] for a method name.  A name the class body does not bind is
    looked up in [tkinter.Tk], whose [__getattr__] forwards the miss to the
    Tcl interpreter object; for a name that is bound in neither, the
    [AttributeError] of that object is what the lookup raises. *)
Definition getattr_self (name : string) : M F method :=
  match dict_get name class_dict with
  | Some m => ret m
  | None =>
      raise (AttributeError
               ("'_tkinter.tkapp' object has no attribute '" ++ name ++ "'"))
  end.

(** Calling a bound method with [n] positional arguments, [0 < n]: every
    method of the class takes [self] alone. *)
Definition call_with_args {A} (m : method) (n : nat) : M F A :=
  raise (OtherException "TypeError"
           ("ODEGUI." ++ method_name m ++ "() takes 1 positional argument but "
            ++ NilEmpty.string_of_uint (Nat.to_uint (S n)) ++ " were given")).

(** [self.show_error(msg)] *)
Definition show_error (msg : string) : M F unit :=
  m <- getattr_self "show_error" ;; call_with_args m 1.

(** [self.load_example(e, p, i, t)] *)
Definition load_example (e : string) (p : list (string * string))
  (i t : string) : M F unit :=
  m <- getattr_self "load_example" ;; call_with_args m 4.

(** *** The axes *)

(** [ax.clear()]: no curves, no title, no labels, no legend, and the grid
    as matplotlib's defaults have it, off. *)
Definition axes_clear (a : Axes F) : Axes F := mkAxes [] "" "" "" false false.
Definition axes_set_title (v : string) (a : Axes F) : Axes F :=
  mkAxes (ax_lines a) v (ax_xlabel a) (ax_ylabel a) (ax_grid a) (ax_legend a).
Definition axes_set_xlabel (v : string) (a : Axes F) : Axes F :=
  mkAxes (ax_lines a) (ax_title a) v (ax_ylabel a) (ax_grid a) (ax_legend a).
Definition axes_set_ylabel (v : string) (a : Axes F) : Axes F :=
  mkAxes (ax_lines a) (ax_title a) (ax_xlabel a) v (ax_grid a) (ax_legend a).
Definition axes_grid (v : bool) (a : Axes F) : Axes F :=
  mkAxes (ax_lines a) (ax_title a) (ax_xlabel a) (ax_ylabel a) v (ax_legend a).
Definition axes_legend (a : Axes F) : Axes F :=
  mkAxes (ax_lines a) (ax_title a) (ax_xlabel a) (ax_ylabel a) (ax_grid a) true.
Definition axes_plot (x y : list F) (label : string) (a : Axes F) : Axes F :=
  mkAxes (ax_lines a ++ [mkLine x y label]) (ax_title a) (ax_xlabel a)
         (ax_ylabel a) (ax_grid a) (ax_legend a).

Definition on_ax (f : Axes F -> Axes F) : M F unit :=
  modify (fun s => set_ax (f (ax s)) s).

(** *** Construction *)

Definition blank : GUI F :=
  mkGUI "" "" "" [] (mkAxes [] "" "" "" false false) [] [] [] [].

Definition create_equation_input (s : GUI F) : GUI F :=
  set_time_entry "0, 10"
    (set_ic_entry "1.0"
       (set_eq_entry "dy/dt = -a*y + sin(b*t)" s)).

(** The entries hold [str(val)] of the defaults 0.5, 1.0, 0.8 and 1.0. *)
Definition create_parameter_input (s : GUI F) : GUI F :=
  set_param_entries [("a", "0.5"); ("b", "1.0"); ("c", "0.8"); ("k", "1.0")] s.

Definition create_plot_area (s : GUI F) : GUI F :=
  set_ax (axes_grid true (axes_set_title "Solution Plot" (ax s))) s.

Definition create_controls (s : GUI F) : GUI F :=
  set_controls [ mkButton "Solve" CmdSolve; mkButton "Clear" CmdClear;
                 mkButton "Examples" CmdExamples; mkButton "Help" CmdHelp ] s.

(** [ODEGUI()] *)
Definition init : GUI F :=
  set_current_params []
    (create_controls
       (create_plot_area
          (create_parameter_input
             (create_equation_input blank)))).

(** *** clear_plot *)

Definition clear_plot : M F unit :=
  on_ax axes_clear ;;
  on_ax (axes_set_title "Solution Plot") ;;
  on_ax (axes_grid true) ;;
  modify (emit EvDraw).

(** *** parse_equation *)

(** [float(s)]; the message names the text by its [repr]. *)
Definition float (s : string) : outcome F :=
  match float_of s with
  | Some v => Returns v
  | None =>
      Raises (ValueError ("could not convert string to float: " ++ PyStr.repr s))
  end.

(** The dict comprehension
    [{name: float(entry.get()) for name, entry in ... if entry.get()}]. *)
Fixpoint param_values (entries : list (string * string))
  : outcome (list (string * F)) :=
  match entries with
  | [] => Returns []
  | (name, text) :: r =>
      if PyStr.truthy text then
        match float text with
        | Raises e => Raises e
        | Returns v =>
            match param_values r with
            | Raises e => Raises e
            | Returns d => Returns ((name, v) :: d)
            end
        end
      else param_values r
  end.

(** [eq_text.split('=')[1].strip()] *)
Definition rhs_of (eq_text : string) : outcome string :=
  match PyStr.split "=" eq_text with
  | _ :: x :: _ => Returns (PyStr.strip x)
  | _ => Raises (IndexError "list index out of range")
  end.

(** The body of the [try] in [parse_equation]. *)
Definition parse_equation_body : M F (Callable F) :=
  eq_text <- gets eq_entry ;;
  (if negb (PyStr.contains "=" eq_text)
   then raise (ValueError "Equation must contain '=' sign")
   else ret tt) ;;
  rhs <- lift (rhs_of eq_text) ;;
  names <- gets (fun s => map fst (param_entries s)) ;;
  modify (emit (EvSympify rhs)) ;;
  expr <- lift (sympify rhs names) ;;
  entries <- gets param_entries ;;
  pv <- lift (param_values entries) ;;
  ret (lambdify (subs pv expr)).

Definition parse_equation : M F (option (Callable F)) :=
  try_except
    (f <- parse_equation_body ;; ret (Some f))
    (fun e =>
       modify (emit (EvExcept "Equation parsing error" e)) ;;
       show_error ("Equation parsing error: " ++ str_exn e) ;;
       ret None).

(** *** solve *)

(** [list(map(float, tokens))] *)
Fixpoint map_float (tokens : list string) : outcome (list F) :=
  match tokens with
  | [] => Returns []
  | x :: r =>
      match float x with
      | Raises e => Raises e
      | Returns v =>
          match map_float r with
          | Raises e => Raises e
          | Returns vs => Returns (v :: vs)
          end
      end
  end.

(** The closure [ode_func(t, y)], with [y] the one-component state. *)
Definition ode_func (rhs_func : Callable F) (t y : F) : M F (value F) :=
  try_except
    (lift (call rhs_func t y))
    (fun e =>
       modify (emit (EvExcept "Evaluation error" e)) ;;
       show_error ("Evaluation error: " ++ str_exn e) ;;
       raise e).

(** The integrator calling back into [fun]: an exception of the callback
    travels through the library's frames. *)
Fixpoint run_integrator (f : F -> F -> M F (value F)) (i : Integrator F)
  : M F (list F * list (list F)) :=
  match i with
  | Result ts y => ret (ts, y)
  | LibRaise e => raise e
  | Eval t y k => v <- f t y ;; run_integrator f (k v)
  end.

(** [sol.y[0]] *)
Definition first_row (y : list (list F)) : outcome (list F) :=
  match y with
  | row :: _ => Returns row
  | [] => Raises (IndexError "list index out of range")
  end.

(** The body of the [try] in [solve].  The [match] on [t_span] is the
    test [len(t_span) != 2] together with the unpacking [*t_span].  The
    axes are cleared before the arguments of [plot] are evaluated. *)
Definition solve_body : M F unit :=
  text <- gets time_entry ;;
  t_span <- lift (map_float (PyStr.split "," text)) ;;
  match t_span with
  | [t0; tf] =>
      ic <- gets ic_entry ;;
      y0 <- lift (float ic) ;;
      rhs_func <- parse_equation ;;
      match rhs_func with
      | None => ret tt
      | Some f =>
          let t_eval := linspace t0 tf 1000 in
          modify (emit (EvSolveIvp t0 tf y0)) ;;
          sol <- run_integrator (ode_func f) (solve_ivp_run t0 tf y0 t_eval) ;;
          on_ax axes_clear ;;
          row <- lift (first_row (snd sol)) ;;
          on_ax (axes_plot (fst sol) row "Numerical Solution") ;;
          on_ax (axes_set_xlabel "Time (t)") ;;
          on_ax (axes_set_ylabel "y(t)") ;;
          on_ax axes_legend ;;
          modify (emit EvDraw)
      end
  | _ => raise (ValueError "Time span must contain exactly two numbers")
  end.

Definition solve : M F unit :=
  try_except solve_body
    (fun e =>
       if is_ValueError e
       then modify (emit (EvExcept "Input error" e)) ;;
            show_error ("Input error: " ++ str_exn e)
       else modify (emit (EvExcept "Solution error" e)) ;;
            show_error ("Solution error: " ++ str_exn e)).

(** *** show_examples and show_help *)

Definition examples
  : list (string * string * list (string * string) * string * string) :=
  [ ("Exponential Decay", "dy/dt = -a*y", [("a", "0.5")], "1.0", "0, 5");
    ("Harmonic Oscillator", "dy/dt = -k*y", [("k", "1.0")], "0.0", "0, 10");
    ("Forced Oscillator", "dy/dt = -k*y + sin(b*t)",
       [("k", "1.0"); ("b", "3.0")], "0.0", "0, 20");
    ("Logistic Growth", "dy/dt = c*y*(1 - y)", [("c", "0.8")], "0.1", "0, 10") ].

Definition example_button
  (ex : string * string * list (string * string) * string * string) : Button :=
  match ex with
  | (name, eq, params, ic, tspan) =>
      mkButton name (CmdLoadExample eq params ic tspan)
  end.

Definition example_label
  (ex : string * string * list (string * string) * string * string) : string :=
  match ex with
  | (_, eq, _, _, _) => eq
  end.

Definition show_examples : M F unit :=
  modify (fun s =>
    set_toplevels
      (toplevels s ++
         [mkToplevel "Example Equations"
            (map example_button examples) (map example_label examples)]) s).

Definition help_text : string :=
  "Valid equation format:" ++ newline ++
  "- Use 'dy/dt' on left side" ++ newline ++
  "- Use standard math operations: +, -, *, /, **" ++ newline ++
  "- Supported functions: sin(), cos(), exp(), sqrt()" ++ newline ++
  "Example: dy/dt = -a*y + sin(b*t)".

Definition show_help : M F unit :=
  modify (fun s =>
    set_toplevels
      (toplevels s ++ [mkToplevel "Help Documentation" [] [help_text]]) s).

(** *** The event loop *)

(** A button press runs the button's command.  An exception that leaves
    the command is uncaught by the program: Tk's callback wrapper prints
    its traceback on the standard error stream and shows nothing. *)
Definition press (c : command) : M F unit :=
  match c with
  | CmdSolve => solve
  | CmdClear => clear_plot
  | CmdExamples => show_examples
  | CmdHelp => show_help
  | CmdLoadExample e p i t => load_example e p i t
  end.

(** The command of the button labelled [name] in the window opened last. *)
Definition last_window_button (name : string) (s : GUI F) : option command :=
  match rev (toplevels s) with
  | [] => None
  | w :: _ =>
      option_map btn_command
        (find (fun b => String.eqb (btn_text b) name) (win_buttons w))
  end.

Definition is_ivp (e : event F) : bool :=
  match e with EvSolveIvp _ _ _ => true | _ => false end.

(** Number of calls of [solve_ivp] so far. *)
Definition ivp_calls (s : GUI F) : nat := length (filter is_ivp (log s)).

(** The exceptions of the two lookups that miss. *)
Definition no_show_error : exn :=
  AttributeError "'_tkinter.tkapp' object has no attribute 'show_error'".
Definition no_load_example : exn :=
  AttributeError "'_tkinter.tkapp' object has no attribute 'load_example'".

(** The exception of the check for ['='] in [parse_equation]. *)
Definition format_error : exn := ValueError "Equation must contain '=' sign".

(** The axes a solve draws: one curve and its labels. *)
Definition solution_axes (ts ys : list F) : Axes F :=
  mkAxes [mkLine ts ys "Numerical Solution"] "" "Time (t)" "y(t)" false true.

(** *** The user *)

(** [entry.delete(0, END); entry.insert(0, v)] on the entry of parameter
    [name]; the dict keeps its keys. *)
Fixpoint set_param (name v : string) (d : list (string * string))
  : list (string * string) :=
  match d with
  | [] => []
  | (k, old) :: r =>
      if String.eqb k name then (k, v) :: r else (k, old) :: set_param name v r
  end.

(** The list without its element of index [i]. *)
Fixpoint remove_nth {A} (i : nat) (l : list A) : list A :=
  match l, i with
  | [], _ => []
  | _ :: r, O => r
  | x :: r, S j => x :: remove_nth j r
  end.

(** What the user can do between two callbacks: press a button, retype
    a field, or close one of the windows that Examples and Help opened. *)
Inductive action : Type :=
| Press (c : command)
| TypeEq (v : string)
| TypeIc (v : string)
| TypeTime (v : string)
| TypeParam (name v : string)
| CloseWindow (i : nat).

(** One action.  An exception that leaves a callback is dropped here, as
    the event loop goes on after Tk has printed it. *)
Definition step (s : GUI F) (a : action) : GUI F :=
  match a with
  | Press c => snd (press c s)
  | TypeEq v => set_eq_entry v s
  | TypeIc v => set_ic_entry v s
  | TypeTime v => set_time_entry v s
  | TypeParam name v => set_param_entries (set_param name v (param_entries s)) s
  | CloseWindow i => set_toplevels (remove_nth i (toplevels s)) s
  end.

Definition run (s : GUI F) (acts : list action) : GUI F := fold_left step acts s.

(** *** Symbols of an expression *)

Fixpoint free_symbols (e : Expr F) : list string :=
  match e with
  | Num _ => []
  | Sym n => [n]
  | Add a b | Mul a b | Pow a b => free_symbols a ++ free_symbols b
  | App _ a => free_symbols a
  end.

(** What [parse_equation] gave its caller is no callable. *)
Definition no_callable (o : outcome (option (Callable F))) : Prop :=
  match o with
  | Returns (Some _) => False
  | _ => True
  end.

(** The axes carry neither the title nor the grid. *)
Definition untitled (s : GUI F) : Prop :=
  ax_title (ax s) = "" /\ ax_grid (ax s) = false.

(** The time-span text splits on comma into exactly two tokens that
    [float] accepts. *)
Definition two_numbers (text : string) : Prop :=
  exists a b x y,
    PyStr.split "," text = [a; b] /\ float_of a = Some x /\ float_of b = Some y.

End Methods.

(** ** A reference instance of the libraries

    Numbers are fixed-point decimals with six places, held as the integer
    number of millionths; [float] reads plain decimal numerals; the parser
    reads [+ - * / **], parentheses, numerals, names and applied names; the
    integrator takes one explicit Euler step per output point. *)

Module Ref.

Local Open Scope Z_scope.

Definition scale : Z := 1000000.

Definition digit_of (c : ascii) : option Z :=
  let n := nat_of_ascii c in
  if ((48 <=? n) && (n <=? 57))%nat then Some (Z.of_nat n - 48) else None.

(** Leading digits of [s]: their value after [acc], their number, the rest. *)
Fixpoint read_digits (s : string) (acc : Z) (n : nat) : Z * nat * string :=
  match s with
  | EmptyString => (acc, n, s)
  | String c r =>
      match digit_of c with
      | Some d => read_digits r (10 * acc + d) (S n)
      | None => (acc, n, s)
      end
  end.

Definition unsigned_of (s : string) : option Z :=
  let '(ip, ni, s2) := read_digits s 0 0%nat in
  match s2 with
  | EmptyString => if (ni =? 0)%nat then None else Some (ip * scale)
  | String "." r =>
      let '(fp, nf, s3) := read_digits r 0 0%nat in
      match s3 with
      | EmptyString =>
          if (ni + nf =? 0)%nat then None
          else Some (ip * scale + fp * scale / 10 ^ Z.of_nat nf)
      | _ => None
      end
  | _ => None
  end.

Definition float_of (s : string) : option Z :=
  match PyStr.strip s with
  | String "-" r => option_map Z.opp (unsigned_of r)
  | String "+" r => unsigned_of r
  | r => unsigned_of r
  end.

Definition fadd (a b : Z) : outcome Z := Returns (a + b).
Definition fmul (a b : Z) : outcome Z := Returns (a * b / scale).

Fixpoint ipow (a : Z) (n : nat) : Z :=
  match n with
  | O => scale
  | S k => a * ipow a k / scale
  end.

Definition fpow (a b : Z) : outcome Z :=
  if negb (b mod scale =? 0) then
    Raises (OtherException "NotImplementedError" "fractional exponent")
  else if 0 <=? b then Returns (ipow a (Z.to_nat (b / scale)))
  else
    let d := ipow a (Z.to_nat (- b / scale)) in
    if d =? 0 then Raises (OtherException "FloatingPointError" "divide by zero")
    else Returns (scale * scale / d).

(** Sum of [n] terms of a power series, each term got from the one before
    it by [next k term]. *)
Fixpoint series (next : Z -> Z -> Z) (n : nat) (k term acc : Z) : Z :=
  match n with
  | O => acc
  | S m => series next m (k + 1) (next k term) (acc + term)
  end.

Definition fexp (x : Z) : Z :=
  series (fun k t => t * x / scale / (k + 1)) 40 0 scale 0.
Definition fsin (x : Z) : Z :=
  series (fun k t => - (t * x / scale * x / scale) / ((2 * k + 2) * (2 * k + 3)))
         20 0 x 0.
Definition fcos (x : Z) : Z :=
  series (fun k t => - (t * x / scale * x / scale) / ((2 * k + 1) * (2 * k + 2)))
         20 0 scale 0.

(** A numpy function on a number, and on a sympy object, which has no
    method of the function's name. *)
Definition ufunc (name : string) (g : Z -> outcome Z) (v : value Z)
  : outcome (value Z) :=
  match v with
  | Number x =>
      match g x with
      | Returns w => Returns (Number w)
      | Raises e => Raises e
      end
  | Symbolic _ =>
      Raises (OtherException "TypeError"
                ("loop of ufunc does not support an argument which has no callable "
                 ++ name ++ " method"))
  end.

Definition np_fun (f : string) : option (value Z -> outcome (value Z)) :=
  if String.eqb f "exp" then Some (ufunc f (fun x => Returns (fexp x)))
  else if String.eqb f "sin" then Some (ufunc f (fun x => Returns (fsin x)))
  else if String.eqb f "cos" then Some (ufunc f (fun x => Returns (fcos x)))
  else if String.eqb f "sqrt" then
    Some (ufunc f
            (fun x => if x <? 0
                      then Raises (OtherException "FloatingPointError" "invalid value")
                      else Returns (Z.sqrt (x * scale))))
  else None.

(** *** The parser *)

Inductive token : Type :=
| TNum (v : Z)
| TId (x : string)
| TPlus | TMinus | TStar | TSlash | TPow | TLParen | TRParen.

Definition is_digit (c : ascii) : bool :=
  match digit_of c with Some _ => true | None => false end.

Definition is_alpha (c : ascii) : bool :=
  let n := nat_of_ascii c in
  (((65 <=? n) && (n <=? 90)) || ((97 <=? n) && (n <=? 122)) || (n =? 95))%nat.

(** The longest prefix of [s] made of name characters, and the rest. *)
Fixpoint read_name (s : string) : string * string :=
  match s with
  | EmptyString => (EmptyString, s)
  | String c r =>
      if is_alpha c || is_digit c
      then let (x, r') := read_name r in (String c x, r')
      else (EmptyString, s)
  end.

(** The longest prefix of [s] that is a numeral, and the rest. *)
Definition read_number (s : string) : option (Z * string) :=
  let '(ip, ni, s2) := read_digits s 0 0%nat in
  match s2 with
  | String "." r =>
      let '(fp, nf, s3) := read_digits r 0 0%nat in
      if (ni + nf =? 0)%nat then None
      else Some (ip * scale + fp * scale / 10 ^ Z.of_nat nf, s3)
  | _ => if (ni =? 0)%nat then None else Some (ip * scale, s2)
  end.

Fixpoint lex (fuel : nat) (s : string) : option (list token) :=
  match fuel with
  | O => None
  | S n =>
      match s with
      | EmptyString => Some []
      | String c r =>
          if PyStr.is_space c then lex n r
          else if is_digit c || Ascii.eqb c "." then
            match read_number s with
            | Some (v, r') => option_map (cons (TNum v)) (lex n r')
            | None => None
            end
          else if is_alpha c then
            let (x, r') := read_name s in option_map (cons (TId x)) (lex n r')
          else if Ascii.eqb c "+" then option_map (cons TPlus) (lex n r)
          else if Ascii.eqb c "-" then option_map (cons TMinus) (lex n r)
          else if Ascii.eqb c "/" then option_map (cons TSlash) (lex n r)
          else if Ascii.eqb c "(" then option_map (cons TLParen) (lex n r)
          else if Ascii.eqb c ")" then option_map (cons TRParen) (lex n r)
          else if Ascii.eqb c "*" then
            match r with
            | String "*" r' => option_map (cons TPow) (lex n r')
            | _ => option_map (cons TStar) (lex n r)
            end
          else None
      end
  end.

Definition neg (e : Expr Z) : Expr Z := Mul (Num (- scale)) e.

Fixpoint parse_expr (fuel : nat) (ts : list token)
  : option (Expr Z * list token) :=
  match fuel with
  | O => None
  | S n =>
      match parse_term n ts with
      | Some (a, r) => parse_expr_tail n a r
      | None => None
      end
  end
with parse_expr_tail (fuel : nat) (a : Expr Z) (ts : list token)
  : option (Expr Z * list token) :=
  match fuel with
  | O => None
  | S n =>
      match ts with
      | TPlus :: r =>
          match parse_term n r with
          | Some (b, r') => parse_expr_tail n (Add a b) r'
          | None => None
          end
      | TMinus :: r =>
          match parse_term n r with
          | Some (b, r') => parse_expr_tail n (Add a (neg b)) r'
          | None => None
          end
      | _ => Some (a, ts)
      end
  end
with parse_term (fuel : nat) (ts : list token)
  : option (Expr Z * list token) :=
  match fuel with
  | O => None
  | S n =>
      match parse_factor n ts with
      | Some (a, r) => parse_term_tail n a r
      | None => None
      end
  end
with parse_term_tail (fuel : nat) (a : Expr Z) (ts : list token)
  : option (Expr Z * list token) :=
  match fuel with
  | O => None
  | S n =>
      match ts with
      | TStar :: r =>
          match parse_factor n r with
          | Some (b, r') => parse_term_tail n (Mul a b) r'
          | None => None
          end
      | TSlash :: r =>
          match parse_factor n r with
          | Some (b, r') => parse_term_tail n (Mul a (Pow b (Num (- scale)))) r'
          | None => None
          end
      | _ => Some (a, ts)
      end
  end
with parse_factor (fuel : nat) (ts : list token)
  : option (Expr Z * list token) :=
  match fuel with
  | O => None
  | S n =>
      match ts with
      | TMinus :: r =>
          match parse_factor n r with
          | Some (a, r') => Some (neg a, r')
          | None => None
          end
      | TPlus :: r => parse_factor n r
      | _ =>
          match parse_atom n ts with
          | Some (a, TPow :: r) =>
              match parse_factor n r with
              | Some (b, r') => Some (Pow a b, r')
              | None => None
              end
          | other => other
          end
      end
  end
with parse_atom (fuel : nat) (ts : list token)
  : option (Expr Z * list token) :=
  match fuel with
  | O => None
  | S n =>
      match ts with
      | TNum v :: r => Some (Num v, r)
      | TId f :: TLParen :: r =>
          match parse_expr n r with
          | Some (a, TRParen :: r') => Some (App f a, r')
          | _ => None
          end
      | TId x :: r => Some (Sym x, r)
      | TLParen :: r =>
          match parse_expr n r with
          | Some (a, TRParen :: r') => Some (a, r')
          | _ => None
          end
      | _ => None
      end
  end.

Definition sympify (s : string) (names : list string) : outcome (Expr Z) :=
  match lex (S (String.length s)) s with
  | None => Raises (SympifyError ("could not parse '" ++ s ++ "'"))
  | Some ts =>
      match parse_expr (8 * List.length ts + 8) ts with
      | Some (e, []) => Returns e
      | _ => Raises (SympifyError ("could not parse '" ++ s ++ "'"))
      end
  end.

(** *** Sampling and integration *)

Definition linspace (a b : Z) (n : nat) : list Z :=
  map (fun i => a + Z.of_nat i * (b - a) / (Z.of_nat n - 1)) (seq 0 n).

(** A right-hand side that gives back a sympy object cannot be turned
    into an array of floats. *)
Definition not_a_float : exn :=
  OtherException "TypeError" "Cannot convert expression to float".

Fixpoint euler (grid : list Z) (t y : Z) (ts ys : list Z) : Integrator Z :=
  match grid with
  | [] => Result (rev ts) [rev ys]
  | t' :: r =>
      Eval t y (fun v =>
        match v with
        | Number f =>
            let y' := y + f * (t' - t) / scale in
            euler r t' y' (t' :: ts) (y' :: ys)
        | Symbolic _ => LibRaise not_a_float
        end)
  end.

(** Over a span of no length there is no output point: [sol.t] and
    [sol.y] are empty. *)
Definition solve_ivp_run (t0 tf y0 : Z) (t_eval : list Z) : Integrator Z :=
  if t0 =? tf then Result [] []
  else
    match t_eval with
    | [] => Result [] []
    | g :: r => euler r g y0 [g] [y0]
    end.

#[global] Instance libs : PyLibs Z :=
  Build_PyLibs Z float_of sympify fadd fmul fpow np_fun linspace solve_ivp_run.

End Ref.

(** ** States of the reference instance used below *)

Definition start : GUI Z := init.

(** The equation field retyped without ['=']. *)
Definition st_no_equals : GUI Z := run start [TypeEq "y"].

(** No ['='], and a time span that is not numeric. *)
Definition st_bad_span : GUI Z :=
  run start [TypeEq "y"; TypeTime "abc"].

(** Linear decay with the field of [a] emptied. *)
Definition st_unbound_a : GUI Z :=
  run start [TypeEq "dy/dt = -a*y"; TypeParam "a" ""].

(** A right-hand side that calls a function numpy does not have. *)
Definition st_unknown_function : GUI Z :=
  run start [TypeEq "dy/dt = foo(t)"].

(** A time span of no length. *)
Definition st_empty_span : GUI Z :=
  run start [TypeEq "dy/dt = -a*y"; TypeTime "1, 1"].

(** An equation text with two ['=']. *)
Definition st_two_equals : GUI Z :=
  run start [TypeEq "dy/dt = -a*y = 0"].

(** Linear decay over [0, 5]. *)
Definition st_decay : GUI Z :=
  run start [TypeEq "dy/dt = -a*y"; TypeTime "0, 5"].

(** The field of [c] retyped, then the Examples window opened. *)
Definition st_examples : GUI Z :=
  run start [TypeParam "c" "2.5"; Press CmdExamples].

Definition logistic : command :=
  CmdLoadExample "dy/dt = c*y*(1 - y)" [("c", "0.8")] "0.1" "0, 10".

(** ** Notions used to state what the methods do *)

Section Notions.
Context {F : Type} {L : PyLibs F}.

(** The exception [float] raises on a text it rejects. *)
Definition conversion_error (x : string) : exn :=
  ValueError ("could not convert string to float: " ++ PyStr.repr x).

(** The exception of the length check in [solve]. *)
Definition span_error : exn :=
  ValueError "Time span must contain exactly two numbers".

(** [float] accepts the text. *)
Definition accepted (x : string) : Prop := float_of x <> None.

(** How one call of [solve_ivp] on a callable ends when no handler is in
    the way: with the library's result, with an exception of the library,
    or at the first evaluation of the right-hand side that raises. *)
Inductive ivp_end : Type :=
| Solved (ts : list F) (y : list (list F))
| LibFailed (e : exn)
| RhsFailed (e : exn).

Fixpoint integrate (f : Callable F) (i : Integrator F) : ivp_end :=
  match i with
  | Result ts y => Solved ts y
  | LibRaise e => LibFailed e
  | Eval t y k =>
      match call f t y with
      | Returns v => integrate f (k v)
      | Raises e => RhsFailed e
      end
  end.

(** The axes as start-up and Clear leave them. *)
Definition titled_blank : Axes F :=
  mkAxes [] "Solution Plot" "" "" true false.

(** The exception of [sol.y[0]] when [sol.y] is empty. *)
Definition no_row : exn := IndexError "list index out of range".

(** The axes as [ax.clear()] alone leaves them. *)
Definition cleared : Axes F := mkAxes [] "" "" "" false false.

Definition is_solve_press (a : action) : bool :=
  match a with
  | Press CmdSolve => true
  | _ => false
  end.

Definition is_window_press (a : action) : bool :=
  match a with
  | Press CmdExamples | Press CmdHelp => true
  | _ => false
  end.

Definition is_close (a : action) : bool :=
  match a with
  | CloseWindow _ => true
  | _ => false
  end.

(** The first piece of [s.split(c)]: the text before the first [c]. *)
Definition first_piece (c : ascii) (s : string) : string :=
  hd EmptyString (PyStr.split c s).

(** The text is empty or starts with a character that is no whitespace. *)
Definition starts_clean (s : string) : Prop :=
  match s with
  | EmptyString => True
  | String c _ => PyStr.is_space c = false
  end.

(** The clause of [solve] that catches [e], named by its message prefix. *)
Definition solve_clause (e : exn) : string :=
  if is_ValueError e then "Input error" else "Solution error".

(** The three shapes of the chart. *)
Definition chart (a : Axes F) : Prop :=
  a = titled_blank \/ a = cleared \/ exists ts ys, a = solution_axes ts ys.

End Notions.

(** The reference instance with an integrator that raises a [ValueError]
    of its own on a span of no length. *)
Definition strict_solve_ivp (t0 tf y0 : Z) (t_eval : list Z) : Integrator Z :=
  if Z.eqb t0 tf then LibRaise (ValueError "empty time span")
  else Ref.solve_ivp_run t0 tf y0 t_eval.

Definition strict_libs : PyLibs Z :=
  Build_PyLibs Z Ref.float_of Ref.sympify Ref.fadd Ref.fmul Ref.fpow
    Ref.np_fun Ref.linspace strict_solve_ivp.

(** Unfolding the monad in a goal about one method. *)
Ltac run_m :=
  unfold solve, solve_body, parse_equation, parse_equation_body, ode_func,
    try_except, bind, gets, lift, ret, raise, modify, on_ax, emit in *;
  simpl in *.

(** * Properties *)

Section Facts.
Context {F : Type} {L : PyLibs F}.

Lemma show_error_raises (msg : string) (s : GUI F) :
  show_error msg s = (Raises no_show_error, s).
Proof. reflexivity. Qed.

Lemma load_example_raises e p i t (s : GUI F) :
  load_example e p i t s = (Raises no_load_example, s).
Proof. reflexivity. Qed.

Lemma add_log_add_log (l1 l2 : list (event F)) (s : GUI F) :
  add_log l2 (add_log l1 s) = add_log (l1 ++ l2) s.
Proof. unfold add_log; simpl. now rewrite app_assoc. Qed.

Lemma ivp_calls_add_log (l : list (event F)) (s : GUI F) :
  ivp_calls (add_log l s) = ivp_calls s + length (filter is_ivp l).
Proof. unfold ivp_calls; simpl. now rewrite filter_app, length_app. Qed.

(** *** float and the comprehensions over it *)

Lemma float_spec (x : string) (r : outcome F) :
  float x = r ->
  match r with
  | Returns v => float_of x = Some v
  | Raises e => is_ValueError e = true /\ float_of x = None
  end.
Proof.
  unfold float. destruct (float_of x); intros <-; simpl; auto.
Qed.

Lemma map_float_raises (l : list string) (e : exn) :
  map_float l = Raises e -> is_ValueError e = true.
Proof.
  induction l as [|x r IH]; simpl; [discriminate|].
  destruct (float x) eqn:Hx.
  - destruct (map_float r); [discriminate|]. intros [= <-]. auto.
  - intros [= <-]. now apply float_spec in Hx.
Qed.

Lemma map_float_returns (l : list string) (vs : list F) :
  map_float l = Returns vs -> Forall2 (fun x v => float_of x = Some v) l vs.
Proof.
  revert vs. induction l as [|x r IH]; simpl; intros vs.
  - intros [= <-]. constructor.
  - destruct (float x) eqn:Hx; [|discriminate].
    destruct (map_float r) eqn:Hr; [|discriminate].
    intros [= <-]. constructor; [now apply float_spec in Hx | now apply IH].
Qed.

Lemma map_float_pair (text : string) (t0 tf : F) :
  map_float (PyStr.split "," text) = Returns [t0; tf] -> two_numbers text.
Proof.
  intros H. apply map_float_returns in H.
  inversion H as [|a x l1 l1' Ha H1 E1]; subst.
  inversion H1 as [|b y l2 l2' Hb H2 E2]; subst.
  inversion H2; subst.
  exists a, b, t0, tf. auto.
Qed.

Lemma two_numbers_map_float (text : string) :
  two_numbers text ->
  exists t0 tf, map_float (PyStr.split "," text) = Returns [t0; tf].
Proof.
  intros (a & b & x & y & Hs & Ha & Hb). exists x, y.
  rewrite Hs. simpl. unfold float. now rewrite Ha, Hb.
Qed.

Lemma parse_equation_body_no_eq (s : GUI F) :
  PyStr.contains "=" (eq_entry s) = false ->
  parse_equation_body s = (Raises format_error, s).
Proof. intros H. run_m. now rewrite H. Qed.

Lemma parse_equation_no_eq (s : GUI F) :
  PyStr.contains "=" (eq_entry s) = false ->
  parse_equation s
  = (Raises no_show_error, add_log [EvExcept "Equation parsing error" format_error] s).
Proof. intros H. run_m. now rewrite H. Qed.

(** What the parser can do: hand back a callable after one call of
    [sympify], or leave by the failed lookup in its handler.  It never
    returns [None]. *)
Lemma parse_equation_cases (s : GUI F) :
  (exists f rhs, parse_equation s = (Returns (Some f), add_log [EvSympify rhs] s)) \/
  (exists e l, parse_equation s
               = (Raises no_show_error, add_log (l ++ [EvExcept "Equation parsing error" e]) s)
               /\ filter is_ivp l = []).
Proof.
  run_m.
  destruct (PyStr.contains "=" (eq_entry s)); simpl.
  2:{ right. exists format_error, []. split; reflexivity. }
  destruct (rhs_of (eq_entry s)) as [rhs|e]; simpl.
  2:{ right. exists e, []. split; reflexivity. }
  destruct (sympify rhs (map fst (param_entries s))) as [expr|e]; simpl.
  2:{ right. exists e, [EvSympify rhs]. rewrite add_log_add_log. split; reflexivity. }
  destruct (param_values (param_entries s)) as [pv|e]; simpl.
  2:{ right. exists e, [EvSympify rhs]. rewrite add_log_add_log. split; reflexivity. }
  left. eexists _, rhs. reflexivity.
Qed.

Lemma run_integrator_eval (f : Callable F) (t y : F)
  (k : value F -> Integrator F) (s : GUI F) :
  run_integrator (ode_func f) (Eval t y k) s
  = match call f t y with
    | Returns v => run_integrator (ode_func f) (k v) s
    | Raises e =>
        (Raises no_show_error, add_log [EvExcept "Evaluation error" e] s)
    end.
Proof.
  simpl. unfold bind, ode_func, try_except, lift.
  destruct (call f t y); reflexivity.
Qed.

(** The integrator changes no widget: it ends with a result, or with an
    exception of the library, or by the failed lookup in the handler of
    [ode_func], entered once. *)
Lemma run_integrator_cases (f : Callable F) (i : Integrator F) (s : GUI F) :
  (exists ts y, run_integrator (ode_func f) i s = (Returns (ts, y), s)) \/
  (exists e, run_integrator (ode_func f) i s = (Raises e, s)) \/
  (exists e, run_integrator (ode_func f) i s
             = (Raises no_show_error, add_log [EvExcept "Evaluation error" e] s)).
Proof.
  induction i as [ts ys|e|t y k IH].
  - left. now exists ts, ys.
  - right; left. now exists e.
  - rewrite run_integrator_eval.
    destruct (call f t y) as [v|e].
    + apply IH.
    + right; right. now exists e.
Qed.

(** *** solve *)

Lemma solve_time_span_error (s : GUI F) :
  ~ two_numbers (time_entry s) ->
  exists e, is_ValueError e = true /\
            solve_body s = (Raises e, s) /\
            solve s = (Raises no_show_error, add_log [EvExcept "Input error" e] s).
Proof.
  intros H. run_m.
  destruct (map_float (PyStr.split "," (time_entry s))) as [vs|e] eqn:Hm; simpl.
  - destruct vs as [|t0 [|tf [|x r]]]; simpl;
      try (eexists; repeat split; reflexivity).
    exfalso. apply H. eapply map_float_pair; eauto.
  - exists e. pose proof (map_float_raises _ _ Hm) as He.
    rewrite He. repeat split; auto.
Qed.

Lemma solve_no_eq (s : GUI F) :
  PyStr.contains "=" (eq_entry s) = false ->
  exists l,
    solve s = (Raises no_show_error, add_log l s) /\
    filter is_ivp l = [] /\
    (two_numbers (time_entry s) -> float_of (ic_entry s) <> None ->
     l = [EvExcept "Equation parsing error" format_error;
          EvExcept "Solution error" no_show_error]).
Proof.
  intros H. unfold solve, try_except, solve_body.
  unfold bind at 1. unfold gets at 1. unfold bind at 1. unfold lift at 1.
  destruct (map_float (PyStr.split "," (time_entry s))) as [vs|e] eqn:Hm.
  - assert (Hbad : forall e, is_ValueError e = true ->
              exists l, (if is_ValueError e
                         then modify (emit (EvExcept "Input error" e)) ;;
                              show_error ("Input error: " ++ str_exn e)
                         else modify (emit (EvExcept "Solution error" e)) ;;
                              show_error ("Solution error: " ++ str_exn e)) s
                        = (Raises no_show_error, add_log l s)
                        /\ filter is_ivp l = []).
    { intros e He. rewrite He. eexists. split; reflexivity. }
    destruct vs as [|t0 [|tf [|x r]]].
    1,2,4: (eexists; split; [reflexivity|]; split; [reflexivity|]);
           intros Ht _; apply two_numbers_map_float in Ht;
           destruct Ht as (a & b & Ht); rewrite Ht in Hm; discriminate.
    unfold bind at 1. unfold gets at 1. unfold bind at 1. unfold lift at 1.
    destruct (float (ic_entry s)) as [y0|e] eqn:Hic.
    + unfold bind at 1. rewrite (parse_equation_no_eq s H).
      change (is_ValueError no_show_error) with false. cbv iota.
      unfold bind, modify, emit.
      rewrite show_error_raises, add_log_add_log.
      eexists. split; [reflexivity|]. split; [reflexivity|]. auto.
    + apply float_spec in Hic. destruct Hic as [He Hn].
      destruct (Hbad e He) as (l & Hl & Hf).
      rewrite He in Hl. rewrite He.
      exists l. split; [exact Hl|]. split; [exact Hf|].
      intros _ Hne. contradiction.
  - pose proof (map_float_raises _ _ Hm) as He. rewrite He.
    eexists. split; [reflexivity|]. split; [reflexivity|].
    intros Ht _. apply two_numbers_map_float in Ht.
    destruct Ht as (a & b & Ht). rewrite Ht in Hm. discriminate.
Qed.


Lemma add_log_nil (s : GUI F) : add_log [] s = s.
Proof. destruct s; unfold add_log; simpl. now rewrite app_nil_r. Qed.

Lemma set_ax_add_log (a : Axes F) (l1 l2 : list (event F)) (s : GUI F) :
  add_log l2 (set_ax a (add_log l1 s)) = set_ax a (add_log (l1 ++ l2) s).
Proof. unfold add_log, set_ax; simpl. now rewrite app_assoc. Qed.

(** Every way through the body of [solve]: it raises with the widgets as
    they were, but for the axes when [sol.y] has no row, which are then
    cleared; or it returns after one [sympify], one [solve_ivp] and one
    redraw, with the axes that the new curve alone makes up. *)
Lemma solve_body_cases (s : GUI F) :
  (exists e l a,
      (a = ax s \/ a = cleared) /\
      solve_body s = (Raises e, set_ax a (add_log l s))) \/
  (exists rhs t0 tf y0 ts ys,
      solve_body s
      = (Returns tt,
         set_ax (solution_axes ts ys)
           (add_log [EvSympify rhs; EvSolveIvp t0 tf y0; EvDraw] s))).
Proof.
  assert (Hsame : forall e l, exists e' l' a,
             (a = ax s \/ a = cleared) /\
             (Raises e, add_log l s)
             = (@Raises unit e', set_ax a (add_log l' s))).
  { intros e l. exists e, l, (ax s). split; [now left|reflexivity]. }
  assert (Hnone : forall e, exists e' l' a,
             (a = ax s \/ a = cleared) /\
             (Raises e, s) = (@Raises unit e', set_ax a (add_log l' s))).
  { intros e. destruct (Hsame e []) as (e' & l' & a & Ha & H).
    rewrite add_log_nil in H. now exists e', l', a. }
  destruct (solve_body s) as [r s1] eqn:E.
  unfold solve_body in E.
  unfold bind at 1 in E. unfold gets at 1 in E.
  unfold bind at 1 in E. unfold lift at 1 in E.
  destruct (map_float (PyStr.split "," (time_entry s))) as [vs|e].
  2:{ injection E as <- <-. left. apply Hnone. }
  destruct vs as [|t0 [|tf [|x r']]];
    try (injection E as <- <-; left; apply Hnone).
  unfold bind at 1 in E. unfold gets at 1 in E.
  unfold bind at 1 in E. unfold lift at 1 in E.
  destruct (float (ic_entry s)) as [y0|e].
  2:{ injection E as <- <-. left. apply Hnone. }
  unfold bind at 1 in E.
  destruct (parse_equation_cases s) as [(f & rhs & Hp)|(e & l & Hp & _)];
    rewrite Hp in E.
  2:{ injection E as <- <-. left. apply Hsame. }
  unfold bind at 1 in E. unfold modify at 1, emit in E.
  rewrite add_log_add_log in E.
  unfold bind at 1 in E.
  destruct (run_integrator_cases f
              (solve_ivp_run t0 tf y0 (linspace t0 tf 1000))
              (add_log ([EvSympify rhs] ++ [EvSolveIvp t0 tf y0]) s))
    as [(ts & y & Hr)|[(e & Hr)|(e & Hr)]]; rewrite Hr in E.
  - clear Hr Hp. destruct y as [|row rest].
    + left. eexists _, _, cleared. split; [now right|].
      cbv beta iota delta
        [bind on_ax modify emit set_ax add_log axes_clear first_row lift
         ax log eq_entry ic_entry time_entry param_entries controls
         toplevels current_params fst snd] in E.
      injection E as <- <-. reflexivity.
    + right. exists rhs, t0, tf, y0, ts, row.
      cbv beta iota delta
        [bind on_ax modify emit set_ax add_log axes_legend axes_set_ylabel
         axes_set_xlabel axes_plot axes_clear first_row lift ax log eq_entry
         ic_entry time_entry param_entries controls toplevels current_params
         ax_lines ax_title ax_xlabel ax_ylabel ax_grid ax_legend fst snd] in E.
      injection E as <- <-.
      unfold set_ax, add_log, solution_axes. simpl.
      now rewrite <- !app_assoc.
  - injection E as <- <-. left. apply Hsame.
  - injection E as <- <-. left. rewrite add_log_add_log. apply Hsame.
Qed.

Lemma solve_cases (s : GUI F) :
  (exists l a,
      (a = ax s \/ a = cleared) /\
      solve s = (Raises no_show_error, set_ax a (add_log l s))) \/
  (exists rhs t0 tf y0 ts ys,
      solve s
      = (Returns tt,
         set_ax (solution_axes ts ys)
           (add_log [EvSympify rhs; EvSolveIvp t0 tf y0; EvDraw] s))).
Proof.
  unfold solve, try_except.
  destruct (solve_body_cases s)
    as [(e & l & a & Ha & H)|(rhs & t0 & tf & y0 & ts & ys & H)]; rewrite H.
  - left. exists (l ++ [EvExcept (solve_clause e) e])%list, a.
    split; [exact Ha|].
    unfold solve_clause.
    destruct (is_ValueError e);
      unfold bind, modify, emit; rewrite show_error_raises, set_ax_add_log;
      reflexivity.
  - right. now exists rhs, t0, tf, y0, ts, ys.
Qed.

(** *** The title and the grid between two presses of Clear *)

Lemma step_untitled (s : GUI F) (a : action) :
  a <> Press CmdClear -> untitled s -> untitled (step s a).
Proof.
  intros Ha Hs. destruct a as [c|v|v|v|n v|i]; try exact Hs.
  destruct c; simpl; try exact Hs.
  - destruct (solve_cases s)
      as [(l & a & [->| ->] & H)|(rhs & t0 & tf & y0 & ts & ys & H)];
      rewrite H; simpl; [exact Hs | split; reflexivity | split; reflexivity].
  - contradiction.
Qed.

Lemma run_untitled (acts : list action) (s : GUI F) :
  ~ In (Press CmdClear) acts -> untitled s -> untitled (run s acts).
Proof.
  revert s. induction acts as [|a r IH]; intros s Hn Hs; simpl; [exact Hs|].
  apply IH.
  - intros Hin. apply Hn. now right.
  - apply step_untitled; [|exact Hs]. intros ->. apply Hn. now left.
Qed.

Lemma run_app (s : GUI F) (l1 l2 : list action) :
  run s (l1 ++ l2) = run (run s l1) l2.
Proof. unfold run. apply fold_left_app. Qed.

(** C10: after every Solve that returns normally the axes carry the
    xlabel 'Time (t)', the ylabel 'y(t)', a legend and the one new curve,
    but neither the title nor the grid; whatever the user does next short of
    pressing Clear (retyping fields, Solve, Examples, Help, a preset
    button), both stay absent, and the next Clear restores them. *)
Theorem solve_leaves_title_and_grid_off (s s' : GUI F) :
  press CmdSolve s = (Returns tt, s') ->
  ax_xlabel (ax s') = "Time (t)" /\
  ax_ylabel (ax s') = "y(t)" /\
  ax_legend (ax s') = true /\
  (exists ts ys, ax_lines (ax s') = [mkLine ts ys "Numerical Solution"]) /\
  ax_title (ax s') = "" /\
  ax_grid (ax s') = false /\
  (forall acts, ~ In (Press CmdClear) acts ->
     ax_title (ax (run s' acts)) = "" /\ ax_grid (ax (run s' acts)) = false) /\
  (forall acts,
     ax_title (ax (run s' (acts ++ [Press CmdClear]))) = "Solution Plot" /\
     ax_grid (ax (run s' (acts ++ [Press CmdClear]))) = true).
Proof.
  simpl. intros H.
  destruct (solve_cases s)
    as [(l & a & _ & Hs)|(rhs & t0 & tf & y0 & ts & ys & Hs)];
    rewrite Hs in H; [discriminate|].
  injection H as <-. simpl.
  repeat split.
  - now exists ts, ys.
  - apply run_untitled; [assumption | split; reflexivity].
  - apply run_untitled; [assumption | split; reflexivity].
  - now rewrite run_app.
  - now rewrite run_app.
Qed.

(** *** The parameters in the parsed expression *)

Lemma param_values_keys (entries : list (string * string))
  (pv : list (string * F)) (name : string) :
  param_values entries = Returns pv ->
  ~ In name (map fst entries) -> dict_get name pv = None.
Proof.
  revert pv. induction entries as [|[n t] r IH]; simpl; intros pv.
  - intros [= <-] _. reflexivity.
  - destruct (PyStr.truthy t).
    + destruct (float t) as [v|e]; [|discriminate].
      destruct (param_values r) as [d|e]; [|discriminate].
      intros [= <-] Hn. simpl.
      destruct (String.eqb_spec name n) as [->|_].
      * exfalso. apply Hn. now left.
      * apply IH; [reflexivity|]. intros Hin. apply Hn. now right.
    + intros Hp Hn. apply IH; [exact Hp|]. intros Hin. apply Hn. now right.
Qed.

Lemma param_values_spec (entries : list (string * string))
  (pv : list (string * F)) :
  param_values entries = Returns pv ->
  NoDup (map fst entries) ->
  forall name text, In (name, text) entries ->
    (text <> "" -> exists v, float_of text = Some v /\ dict_get name pv = Some v) /\
    (text = "" -> dict_get name pv = None).
Proof.
  revert pv. induction entries as [|[n t] r IH]; simpl; intros pv Hp Hnd name text Hin.
  - contradiction.
  - inversion Hnd as [|? ? Hnotin Hnd']; subst.
    destruct Hin as [[= -> ->]|Hin].
    + destruct text as [|c text']; simpl in Hp.
      * split; [congruence|]. intros _.
        eapply param_values_keys; eauto.
      * destruct (float (String c text')) as [v|e] eqn:Hf; [|discriminate].
        destruct (param_values r) as [d|e]; [|discriminate].
        injection Hp as <-. split; [|discriminate].
        intros _. exists v. apply float_spec in Hf. split; [exact Hf|].
        simpl. now rewrite String.eqb_refl.
    + assert (Hne : name <> n).
      { intros ->. apply Hnotin. apply in_map_iff. now exists (n, text). }
      destruct (PyStr.truthy t).
      * destruct (float t) as [v|e]; [|discriminate].
        destruct (param_values r) as [d|e] eqn:Hr; [|discriminate].
        injection Hp as <-. simpl.
        destruct (String.eqb_spec name n) as [->|_]; [contradiction|].
        now apply IH.
      * now apply IH.
Qed.

Lemma free_symbols_subs (d : list (string * F)) (e : Expr F) (n : string) :
  In n (free_symbols (subs d e)) <-> In n (free_symbols e) /\ dict_get n d = None.
Proof.
  induction e as [v|m|a IHa b IHb|a IHa b IHb|a IHa b IHb|f a IHa]; simpl.
  - tauto.
  - destruct (dict_get m d) as [v|] eqn:Hm; simpl.
    + split; [tauto|]. intros [[->|[]] Hn]. congruence.
    + split.
      * intros [->|[]]. auto.
      * tauto.
  - rewrite !in_app_iff, IHa, IHb. tauto.
  - rewrite !in_app_iff, IHa, IHb. tauto.
  - rewrite !in_app_iff, IHa, IHb. tauto.
  - exact IHa.
Qed.

(** C7: when the parser returns a callable, it is the lambdified
    [subs pv expr], where [expr] is what sympify made of the right-hand
    side; for every parameter whose entry is non-empty the entry's text is
    a float [v], the symbol is replaced by [v] and no longer occurs in the
    result; for every parameter whose entry is empty the symbol is left as
    it is, and occurs in the result exactly when it occurs in [expr]. *)
Theorem parse_equation_substitutes_filled_parameters
  (s s' : GUI F) (f : Callable F) :
  NoDup (map fst (param_entries s)) ->
  parse_equation s = (Returns (Some f), s') ->
  exists rhs expr pv,
    rhs_of (eq_entry s) = Returns rhs /\
    sympify rhs (map fst (param_entries s)) = Returns expr /\
    f = lambdify (subs pv expr) /\
    forall name text, In (name, text) (param_entries s) ->
      (text <> "" ->
         exists v, float_of text = Some v /\
                   subs pv (Sym name) = Num v /\
                   ~ In name (free_symbols (subs pv expr))) /\
      (text = "" ->
         subs pv (Sym name) = Sym name /\
         (In name (free_symbols (subs pv expr)) <-> In name (free_symbols expr))).
Proof.
  intros Hnd H.
  unfold parse_equation, try_except in H.
  unfold bind at 1 in H.
  destruct (parse_equation_body s) as [[g|e] s1] eqn:Hb.
  2:{ unfold bind, modify, emit in H. rewrite show_error_raises in H.
      discriminate. }
  unfold ret in H. injection H as -> <-.
  unfold parse_equation_body in Hb.
  unfold bind at 1 in Hb. unfold gets at 1 in Hb.
  unfold bind at 1 in Hb.
  destruct (PyStr.contains "=" (eq_entry s)); simpl in Hb; [|discriminate].
  unfold bind at 1 in Hb. unfold lift at 1 in Hb.
  destruct (rhs_of (eq_entry s)) as [rhs|e]; [|discriminate].
  unfold bind, gets, modify, lift, ret, emit in Hb. simpl in Hb.
  destruct (sympify rhs (map fst (param_entries s))) as [expr|e] eqn:Hs;
    [|discriminate].
  destruct (param_values (param_entries s)) as [pv|e] eqn:Hpv; [|discriminate].
  injection Hb as <- _.
  exists rhs, expr, pv. repeat split; auto.
  - destruct (param_values_spec _ _ Hpv Hnd name text H) as [Hfill _].
    intros Hne. destruct (Hfill Hne) as (v & Hv & Hg).
    exists v. split; [exact Hv|]. split.
    + simpl. now rewrite Hg.
    + rewrite free_symbols_subs. intros [_ Hnone]. congruence.
  - simpl. destruct (param_values_spec _ _ Hpv Hnd name text H) as [_ Hempty].
    now rewrite (Hempty H0).
  - rewrite free_symbols_subs. tauto.
  - destruct (param_values_spec _ _ Hpv Hnd name text H) as [_ Hempty].
    rewrite free_symbols_subs. intros Hin. split; [exact Hin|]. now apply Hempty.
Qed.

Lemma param_values_floats (entries : list (string * string))
  (pv : list (string * F)) (name text : string) :
  param_values entries = Returns pv ->
  In (name, text) entries -> text <> "" -> float_of text <> None.
Proof.
  revert pv. induction entries as [|[n t] r IH]; simpl; intros pv Hp Hin Hne.
  - contradiction.
  - destruct Hin as [[= -> ->]|Hin].
    + destruct text as [|c text']; [congruence|]. simpl in Hp.
      destruct (float (String c text')) as [v|e] eqn:Hf; [|discriminate].
      apply float_spec in Hf. congruence.
    + destruct (PyStr.truthy t).
      * destruct (float t) as [v|e]; [|discriminate].
        destruct (param_values r) as [d|e] eqn:Hr; [|discriminate].
        now apply (IH d).
      * now apply (IH pv).
Qed.

(** X3: A parameter field that is neither empty nor a float makes the parser
    fail: its caller gets no callable. *)
Theorem parse_equation_rejects_non_numeric_parameter
  (s : GUI F) (name text : string) :
  In (name, text) (param_entries s) ->
  text <> "" ->
  float_of text = None ->
  no_callable (fst (parse_equation s)).
Proof.
  intros Hin Hne Hf.
  unfold parse_equation, try_except.
  unfold bind at 1.
  destruct (parse_equation_body s) as [[g|e] s2] eqn:Hb.
  2:{ unfold bind, modify, emit. rewrite show_error_raises. exact I. }
  exfalso.
  unfold parse_equation_body in Hb.
  unfold bind at 1 in Hb. unfold gets at 1 in Hb.
  unfold bind at 1 in Hb.
  destruct (PyStr.contains "=" (eq_entry s)); simpl in Hb; [|discriminate].
  unfold bind at 1 in Hb. unfold lift at 1 in Hb.
  destruct (rhs_of (eq_entry s)) as [rhs|e]; [|discriminate].
  unfold bind, gets, modify, lift, ret, emit in Hb. simpl in Hb.
  destruct (sympify rhs (map fst (param_entries s))) as [expr|e];
    [|discriminate].
  destruct (param_values (param_entries s)) as [pv|e] eqn:Hpv; [|discriminate].
  exact (param_values_floats _ _ _ _ Hpv Hin Hne Hf).
Qed.

(** *** Errors of Solve *)

(** C3, as amended: for every equation text without ['='], pressing Solve
    never calls [solve_ivp] and the parser hands no callable to its
    caller; when moreover the time span holds two numbers and the initial
    condition is a number, the parser is reached, raises the format error
    and enters its handler, the error-display path. *)
Theorem solve_without_equals_sign (s : GUI F) :
  PyStr.contains "=" (eq_entry s) = false ->
  ivp_calls (snd (press CmdSolve s)) = ivp_calls s /\
  (forall f s1, parse_equation s <> (Returns (Some f), s1)) /\
  parse_equation_body s = (Raises format_error, s) /\
  (two_numbers (time_entry s) -> float_of (ic_entry s) <> None ->
   exists rest,
     log (snd (press CmdSolve s))
     = (log s ++ EvExcept "Equation parsing error" format_error :: rest)%list).
Proof.
  intros H. simpl.
  destruct (solve_no_eq s H) as (l & Hs & Hf & Hl).
  rewrite Hs. simpl. repeat split.
  - rewrite ivp_calls_add_log, Hf. simpl. lia.
  - intros f s1. rewrite (parse_equation_no_eq s H). discriminate.
  - now apply parse_equation_body_no_eq.
  - intros Ht Hic. rewrite (Hl Ht Hic). eexists. reflexivity.
Qed.

(** C4: for every time-span text that does not split on comma into
    exactly two tokens that [float] accepts, pressing Solve raises a
    [ValueError] in the body of [solve], which the [except ValueError]
    clause, the one that builds the input-error message, catches; nothing
    else is logged, so neither [sympify] nor [solve_ivp] is called. *)
Theorem solve_rejects_bad_time_span (s : GUI F) :
  ~ two_numbers (time_entry s) ->
  exists e,
    is_ValueError e = true /\
    solve_body s = (Raises e, s) /\
    log (snd (press CmdSolve s)) = (log s ++ [EvExcept "Input error" e])%list /\
    ivp_calls (snd (press CmdSolve s)) = ivp_calls s.
Proof.
  intros H. destruct (solve_time_span_error s H) as (e & He & Hb & Hs).
  exists e. simpl. rewrite Hs. simpl. repeat split; auto.
  rewrite ivp_calls_add_log. simpl. lia.
Qed.

(** *** The right-hand side *)

Lemma split_no_sep (c : ascii) (s : string) :
  PyStr.count c s = 0%nat -> PyStr.split c s = [s].
Proof.
  induction s as [|d r IH]; simpl; [reflexivity|].
  destruct (Ascii.eqb d c); simpl; [discriminate|].
  intros H. now rewrite (IH H).
Qed.

(** X1: With exactly one ['='] in the text, the parser takes all that follows
    it, stripped. *)
Lemma rhs_of_single_equals (s : string) :
  PyStr.count "=" s = 1%nat ->
  exists x, PyStr.after_first "=" s = Some x /\ rhs_of s = Returns (PyStr.strip x).
Proof.
  unfold rhs_of.
  induction s as [|d r IH]; simpl; [discriminate|].
  destruct (Ascii.eqb d "=") eqn:Hd; simpl.
  - intros [= H]. exists r. rewrite (split_no_sep _ _ H). auto.
  - intros H. destruct (IH H) as (x & Ha & Hr). exists x. split; [exact Ha|].
    destruct (PyStr.split "=" r) as [|h [|y t]]; try discriminate.
    exact Hr.
Qed.

(** X2: When Solve raises, the entry fields and the windows are as they
    were before the press and the log has only grown; the axes are as
    they were too, or cleared of everything, which happens when the failure
    comes after [ax.clear()]. *)
Theorem solve_failure_keeps_fields_and_windows (s s' : GUI F) (e : exn) :
  press CmdSolve s = (Raises e, s') ->
  (ax s' = ax s \/ ax s' = cleared) /\
  eq_entry s' = eq_entry s /\
  ic_entry s' = ic_entry s /\
  time_entry s' = time_entry s /\
  param_entries s' = param_entries s /\
  toplevels s' = toplevels s /\
  exists l, log s' = (log s ++ l)%list.
Proof.
  simpl. intros H.
  destruct (solve_cases s)
    as [(l & a & Ha & Hs)|(rhs & t0 & tf & y0 & ts & ys & Hs)];
    rewrite Hs in H; [|discriminate].
  injection H as _ <-. simpl.
  split; [destruct Ha; auto|]. repeat split. now exists l.
Qed.

(** *** clear_plot *)

(** C8: pressing Clear, in every state, returns normally and leaves the
    axes with no curve, the title "Solution Plot" and the grid on; the
    entry fields are not touched. *)
Theorem clear_plot_restores_blank_chart (s : GUI F) :
  fst (press CmdClear s) = Returns tt /\
  ax_lines (ax (snd (press CmdClear s))) = [] /\
  ax_title (ax (snd (press CmdClear s))) = "Solution Plot" /\
  ax_grid (ax (snd (press CmdClear s))) = true /\
  ax_legend (ax (snd (press CmdClear s))) = false /\
  eq_entry (snd (press CmdClear s)) = eq_entry s /\
  time_entry (snd (press CmdClear s)) = time_entry s.
Proof.
  repeat split.
Qed.

End Facts.

(** * Runs on the reference instance *)

Example split_time_span : PyStr.split "," "0, 10" = ["0"; " 10"].
Proof. reflexivity. Qed.

Example split_empty_text : PyStr.split "," "" = [""].
Proof. reflexivity. Qed.

Example split_three_parts :
  PyStr.split "=" "dy/dt = -a*y = 0" = ["dy/dt "; " -a*y "; " 0"].
Proof. reflexivity. Qed.

Example strip_both_ends : PyStr.strip "  -a*y " = "-a*y".
Proof. reflexivity. Qed.

Example ref_float_padded : Ref.float_of " 10" = Some 10000000%Z.
Proof. reflexivity. Qed.

Example ref_float_letters : Ref.float_of "abc" = None.
Proof. reflexivity. Qed.

Example ref_float_empty : Ref.float_of "" = None.
Proof. reflexivity. Qed.

Example ref_sympify_logistic :
  Ref.sympify "c*y*(1 - y)" []
  = Returns (Mul (Mul (Sym "c") (Sym "y"))
               (Add (Num 1000000%Z) (Mul (Num (-1000000)%Z) (Sym "y")))).
Proof. vm_compute. reflexivity. Qed.

Example ref_sympify_rejects_equals :
  Ref.sympify "-a*y = 0" [] = Raises (SympifyError "could not parse '-a*y = 0'").
Proof. vm_compute. reflexivity. Qed.

Example start_fields :
  eq_entry start = "dy/dt = -a*y + sin(b*t)" /\
  ic_entry start = "1.0" /\
  time_entry start = "0, 10" /\
  param_entries start = [("a", "0.5"); ("b", "1.0"); ("c", "0.8"); ("k", "1.0")] /\
  ax_title (ax start) = "Solution Plot" /\
  ax_grid (ax start) = true /\
  map btn_text (controls start) = ["Solve"; "Clear"; "Examples"; "Help"].
Proof. repeat split. Qed.

(** Linear decay over [0, 5] on the reference instance: Solve returns and
    draws one curve of 1000 points that ends at [t = 5]. *)
Example decay_run :
  fst (press CmdSolve st_decay) = Returns tt /\
  map (fun l => (length (line_x l), last (line_x l) 0%Z))
      (ax_lines (ax (snd (press CmdSolve st_decay))))
  = [(1000%nat, 5000000%Z)].
Proof. split; vm_compute; reflexivity. Qed.

(** With the field of [a] emptied, [-a*y] evaluates to a sympy object and
    raises nothing: the handler of [ode_func] is not entered, and the
    error is the one of the integrator, which cannot use such a value. *)
Example unbound_parameter_run :
  call (Lambdified (Mul (Mul (Num (-1000000)%Z) (Sym "a")) (Sym "y")))
       0%Z 1000000%Z
  = Returns (Symbolic (Mul (Mul (Num (-1000000)%Z) (Sym "a")) (Num 1000000%Z))) /\
  log (snd (press CmdSolve st_unbound_a))
  = [EvSympify "-a*y"; EvSolveIvp 0%Z 10000000%Z 1000000%Z;
     EvExcept "Solution error" Ref.not_a_float] /\
  ax (snd (press CmdSolve st_unbound_a)) = ax st_unbound_a.
Proof. repeat split; vm_compute; reflexivity. Qed.

(** C1: [show_error] is bound nowhere, so every call of it raises
    [AttributeError]; with an equation text that lacks ['='], Solve enters
    the handler of the parser and then its own, both fail in that call,
    and the [AttributeError] leaves [solve] uncaught, with no window
    opened. *)
Theorem solve_error_is_not_displayed :
  (forall (F : Type) (L : PyLibs F) (msg : string) (s : GUI F),
      show_error msg s = (Raises no_show_error, s)) /\
  press CmdSolve st_no_equals
  = (Raises no_show_error,
     add_log [EvExcept "Equation parsing error" format_error;
              EvExcept "Solution error" no_show_error] st_no_equals) /\
  toplevels (snd (press CmdSolve st_no_equals)) = [].
Proof.
  split; [intros; apply show_error_raises|].
  split; vm_compute; reflexivity.
Qed.

(** C2: the button "Logistic Growth" of the Examples window carries the
    preset's literal values, but [load_example] is bound nowhere: pressing
    the button raises [AttributeError] and every field keeps its text. *)
Theorem preset_button_changes_no_field :
  (forall (F : Type) (L : PyLibs F) e p i t (s : GUI F),
      load_example e p i t s = (Raises no_load_example, s)) /\
  last_window_button "Logistic Growth" st_examples = Some logistic /\
  press logistic st_examples = (Raises no_load_example, st_examples) /\
  eq_entry (snd (press logistic st_examples)) = "dy/dt = -a*y + sin(b*t)" /\
  dict_get "c" (param_entries (snd (press logistic st_examples))) = Some "2.5" /\
  ic_entry (snd (press logistic st_examples)) = "1.0" /\
  time_entry (snd (press logistic st_examples)) = "0, 10".
Proof.
  split; [intros; apply load_example_raises|].
  repeat split.
Qed.

(** C3, as stated, fails: with no ['='] in the equation and a time span
    that is not numeric, Solve stops at the time span; the only handler
    entered is the one for input errors, and no format error arises. *)
Lemma solve_checks_time_span_before_equation :
  PyStr.contains "=" (eq_entry st_bad_span) = false /\
  log (snd (press CmdSolve st_bad_span))
  = [EvExcept "Input error"
       (ValueError "could not convert string to float: 'abc'")] /\
  ~ In (EvExcept "Equation parsing error" format_error)
       (log (snd (press CmdSolve st_bad_span))).
Proof.
  split; [reflexivity|]. split; [vm_compute; reflexivity|].
  vm_compute. intros [H|[]]. discriminate.
Qed.

(** The amended C3 at the state [st_no_equals], where the time span and
    the initial condition are the defaults. *)
Lemma solve_without_equals_sign_witness :
  ivp_calls (snd (press CmdSolve st_no_equals)) = ivp_calls st_no_equals /\
  exists rest,
    log (snd (press CmdSolve st_no_equals))
    = (log st_no_equals
       ++ EvExcept "Equation parsing error" format_error :: rest)%list.
Proof.
  pose proof (solve_without_equals_sign st_no_equals eq_refl) as (H1 & _ & _ & H2).
  split; [exact H1|]. apply H2.
  - exists "0", " 10", 0%Z, 10000000%Z. repeat split.
  - discriminate.
Defined.

(** C4 at the state [st_bad_span], whose time span is [abc]. *)
Lemma solve_rejects_bad_time_span_witness :
  exists e,
    is_ValueError e = true /\
    solve_body st_bad_span = (Raises e, st_bad_span) /\
    log (snd (press CmdSolve st_bad_span))
    = (log st_bad_span ++ [EvExcept "Input error" e])%list /\
    ivp_calls (snd (press CmdSolve st_bad_span)) = ivp_calls st_bad_span.
Proof.
  apply (solve_rejects_bad_time_span st_bad_span).
  intros (a & b & x & y & Hs & _). vm_compute in Hs. discriminate.
Defined.

(** C5: the right-hand side [foo(t)] calls a function that is not in the
    numpy namespace, so the generated function raises [NameError] at its
    first evaluation; the handler of [ode_func] is entered, its call of
    [show_error] raises [AttributeError], so the [NameError] is neither
    shown nor re-raised, and the [AttributeError] is what leaves
    [ode_func], [solve_ivp] and then [solve]; the axes stay as they were. *)
Theorem rhs_error_is_replaced_by_lookup_error :
  fst (parse_equation st_unknown_function)
  = Returns (Some (Lambdified (App "foo" (Sym "t")))) /\
  call (Lambdified (App "foo" (Sym "t"))) 0%Z 1000000%Z
  = Raises (NameError "name 'foo' is not defined") /\
  ode_func (Lambdified (App "foo" (Sym "t"))) 0%Z 1000000%Z st_unknown_function
  = (Raises no_show_error,
     add_log [EvExcept "Evaluation error"
                (NameError "name 'foo' is not defined")]
             st_unknown_function) /\
  press CmdSolve st_unknown_function
  = (Raises no_show_error,
     add_log [EvSympify "foo(t)"; EvSolveIvp 0%Z 10000000%Z 1000000%Z;
              EvExcept "Evaluation error"
                (NameError "name 'foo' is not defined");
              EvExcept "Solution error" no_show_error] st_unknown_function) /\
  ax (snd (press CmdSolve st_unknown_function)) = ax st_unknown_function.
Proof.
  repeat split; vm_compute; reflexivity.
Qed.

(** C6: of the text [dy/dt = -a*y = 0] the parser keeps [-a*y], the
    piece between the first and the second ['='], where all that follows
    the first ['='] is [-a*y = 0]; sympify gets the shorter text and Solve
    draws a curve without complaint. *)
Theorem rhs_stops_at_second_equals :
  rhs_of "dy/dt = -a*y = 0" = Returns "-a*y" /\
  option_map PyStr.strip (PyStr.after_first "=" "dy/dt = -a*y = 0")
  = Some "-a*y = 0" /\
  fst (press CmdSolve st_two_equals) = Returns tt /\
  log (snd (press CmdSolve st_two_equals))
  = [EvSympify "-a*y"; EvSolveIvp 0%Z 10000000%Z 1000000%Z; EvDraw].
Proof.
  repeat split; vm_compute; reflexivity.
Qed.

(** C7 at start-up with the field of [b] emptied: [a] is replaced by 0.5
    and [b] stays a symbol. *)
Lemma parse_equation_substitutes_filled_parameters_witness :
  exists rhs expr pv,
    rhs_of (eq_entry (run start [TypeParam "b" ""])) = Returns rhs /\
    sympify rhs (map fst (param_entries (run start [TypeParam "b" ""])))
    = Returns expr /\
    Lambdified
      (Add (Mul (Mul (Num (-1000000)%Z) (Num 500000%Z)) (Sym "y"))
           (App "sin" (Mul (Sym "b") (Sym "t"))))
    = lambdify (subs pv expr) /\
    forall name text,
      In (name, text) (param_entries (run start [TypeParam "b" ""])) ->
      (text <> "" ->
         exists v, float_of text = Some v /\
                   subs pv (Sym name) = Num v /\
                   ~ In name (free_symbols (subs pv expr))) /\
      (text = "" ->
         subs pv (Sym name) = Sym name /\
         (In name (free_symbols (subs pv expr)) <-> In name (free_symbols expr))).
Proof.
  apply (parse_equation_substitutes_filled_parameters
           (run start [TypeParam "b" ""])
           (snd (parse_equation (run start [TypeParam "b" ""])))).
  - vm_compute. repeat constructor; simpl; intuition discriminate.
  - vm_compute. reflexivity.
Defined.

(** C10 at the state [st_decay], followed by Help, Solve and Clear. *)
Lemma solve_leaves_title_and_grid_off_witness :
  ax_title (ax (snd (press CmdSolve st_decay))) = "" /\
  ax_grid (ax (snd (press CmdSolve st_decay))) = false /\
  ax_title (ax (run (snd (press CmdSolve st_decay))
                    [Press CmdHelp; Press CmdSolve; Press CmdClear]))
  = "Solution Plot".
Proof.
  assert (H : press CmdSolve st_decay = (Returns tt, snd (press CmdSolve st_decay)))
    by (vm_compute; reflexivity).
  pose proof (solve_leaves_title_and_grid_off st_decay _ H)
    as (_ & _ & _ & _ & Ht & Hg & _ & Hc).
  split; [exact Ht|]. split; [exact Hg|].
  exact (proj1 (Hc [Press CmdHelp; Press CmdSolve])).
Defined.


Lemma rhs_of_single_equals_witness :
  exists x,
    PyStr.after_first "=" "dy/dt = -a*y" = Some x /\
    rhs_of "dy/dt = -a*y" = Returns (PyStr.strip x).
Proof.
  apply (rhs_of_single_equals "dy/dt = -a*y"). reflexivity.
Defined.

Lemma solve_failure_keeps_fields_and_windows_witness :
  ax (snd (press CmdSolve st_empty_span)) = cleared /\
  eq_entry (snd (press CmdSolve st_empty_span)) = "dy/dt = -a*y" /\
  time_entry (snd (press CmdSolve st_empty_span)) = "1, 1".
Proof.
  assert (H : press CmdSolve st_empty_span
              = (Raises no_show_error, snd (press CmdSolve st_empty_span)))
    by (vm_compute; reflexivity).
  pose proof (solve_failure_keeps_fields_and_windows st_empty_span _ _ H)
    as (_ & He & _ & Ht & _).
  split; [vm_compute; reflexivity|]. rewrite He, Ht. split; reflexivity.
Defined.

Lemma parse_equation_rejects_non_numeric_parameter_witness :
  no_callable (fst (parse_equation (run start [TypeParam "a" "abc"]))).
Proof.
  apply (parse_equation_rejects_non_numeric_parameter
           (run start [TypeParam "a" "abc"]) "a" "abc").
  - left. reflexivity.
  - discriminate.
  - reflexivity.
Defined.

(** * More properties of the methods *)

Section MoreFacts.
Context {F : Type} {L : PyLibs F}.

(** ** Pieces of a split text *)

Lemma split_length (c : ascii) (s : string) :
  length (PyStr.split c s) = S (PyStr.count c s).
Proof.
  induction s as [|d r IH]; simpl; [reflexivity|].
  destruct (Ascii.eqb d c); simpl.
  - now rewrite IH.
  - destruct (PyStr.split c r) as [|w ws]; simpl in *; [discriminate|exact IH].
Qed.

Lemma split_after_first (c : ascii) (s r : string) :
  PyStr.after_first c s = Some r ->
  exists h, PyStr.split c s = h :: PyStr.split c r.
Proof.
  induction s as [|d t IH]; simpl; [discriminate|].
  destruct (Ascii.eqb d c).
  - intros [= <-]. now exists EmptyString.
  - intros H. destruct (IH H) as (h & Hh). rewrite Hh. now exists (String d h).
Qed.

Lemma contains_after_first (c : ascii) (s : string) :
  PyStr.contains c s = true -> exists r, PyStr.after_first c s = Some r.
Proof.
  induction s as [|d t IH]; simpl; [discriminate|].
  destruct (Ascii.eqb d c); simpl.
  - intros _. now exists t.
  - exact IH.
Qed.

Lemma rhs_of_defined (s : string) :
  PyStr.contains "=" s = true -> exists x, rhs_of s = Returns x.
Proof.
  intros H. destruct (contains_after_first _ _ H) as (r & Hr).
  destruct (split_after_first _ _ _ Hr) as (h & Hh).
  unfold rhs_of. rewrite Hh.
  pose proof (split_length "=" r) as Hl.
  destruct (PyStr.split "=" r) as [|x rest]; [discriminate|eauto].
Qed.

(** X4: Once ['='] is in the text the index [1] of the split is in range: the
    parser takes the text between the first ['='] and the next one (or the
    end), stripped, and never raises [IndexError]. *)
Theorem rhs_of_between_first_and_next_equals (s : string) :
  PyStr.contains "=" s = true ->
  exists r,
    PyStr.after_first "=" s = Some r /\
    rhs_of s = Returns (PyStr.strip (first_piece "=" r)).
Proof.
  intros H. destruct (contains_after_first _ _ H) as (r & Hr).
  exists r. split; [exact Hr|].
  destruct (split_after_first _ _ _ Hr) as (h & Hh).
  unfold rhs_of, first_piece. rewrite Hh.
  pose proof (split_length "=" r) as Hl.
  destruct (PyStr.split "=" r) as [|x rest]; [discriminate|reflexivity].
Qed.

(** ** strip *)

Lemma lstrip_starts_clean (s : string) : starts_clean (PyStr.lstrip s).
Proof.
  induction s as [|c r IH]; simpl; [exact I|].
  destruct (PyStr.is_space c) eqn:Hc; [exact IH|exact Hc].
Qed.

Lemma lstrip_of_clean (s : string) : starts_clean s -> PyStr.lstrip s = s.
Proof.
  destruct s as [|c r]; simpl; [reflexivity|]. now intros ->.
Qed.

Lemma rstrip_starts_clean (s : string) :
  starts_clean s -> starts_clean (PyStr.rstrip s).
Proof.
  destruct s as [|c r]; simpl; [auto|].
  intros Hc. destruct (PyStr.rstrip r); simpl; [now rewrite Hc|exact Hc].
Qed.

Lemma rstrip_idempotent (s : string) :
  PyStr.rstrip (PyStr.rstrip s) = PyStr.rstrip s.
Proof.
  induction s as [|c r IH]; simpl; [reflexivity|].
  destruct (PyStr.rstrip r) as [|d t] eqn:Hr.
  - destruct (PyStr.is_space c) eqn:Hc; simpl; [reflexivity|now rewrite Hc].
  - simpl in *. now rewrite IH.
Qed.

Lemma strip_idempotent (s : string) :
  PyStr.strip (PyStr.strip s) = PyStr.strip s.
Proof.
  unfold PyStr.strip.
  rewrite (lstrip_of_clean (PyStr.rstrip (PyStr.lstrip s))).
  - apply rstrip_idempotent.
  - apply rstrip_starts_clean, lstrip_starts_clean.
Qed.

(** X5: The text handed to sympify carries no whitespace at either end:
    stripping it again changes nothing. *)
Theorem rhs_of_is_stripped (s x : string) :
  rhs_of s = Returns x -> PyStr.strip x = x /\ starts_clean x.
Proof.
  unfold rhs_of.
  destruct (PyStr.split "=" s) as [|a [|b t]]; try discriminate.
  intros [= <-]. split; [apply strip_idempotent|].
  apply rstrip_starts_clean, lstrip_starts_clean.
Qed.


(** ** The integrator without the handlers *)

Lemma run_integrator_integrate (f : Callable F) (i : Integrator F) (s : GUI F) :
  run_integrator (ode_func f) i s
  = match integrate f i with
    | Solved ts y => (Returns (ts, y), s)
    | LibFailed e => (Raises e, s)
    | RhsFailed e =>
        (Raises no_show_error, add_log [EvExcept "Evaluation error" e] s)
    end.
Proof.
  induction i as [ts ys|e|t y k IH]; try reflexivity.
  rewrite run_integrator_eval. simpl.
  destruct (call f t y) as [v|e]; [apply IH|reflexivity].
Qed.

Lemma solve_handler (body : M F unit) (e : exn) (s s1 : GUI F) :
  body s = (Raises e, s1) ->
  try_except body
    (fun e =>
       if is_ValueError e
       then modify (emit (EvExcept "Input error" e)) ;;
            show_error ("Input error: " ++ str_exn e)
       else modify (emit (EvExcept "Solution error" e)) ;;
            show_error ("Solution error: " ++ str_exn e)) s
  = (Raises no_show_error, add_log [EvExcept (solve_clause e) e] s1).
Proof.
  intros H. unfold try_except, solve_clause. rewrite H.
  destruct (is_ValueError e); reflexivity.
Qed.

Lemma solve_raises (e : exn) (s s1 : GUI F) :
  solve_body s = (Raises e, s1) ->
  solve s = (Raises no_show_error, add_log [EvExcept (solve_clause e) e] s1).
Proof. intros H. unfold solve. now apply solve_handler. Qed.

Lemma solve_returns (s s1 : GUI F) :
  solve_body s = (Returns tt, s1) -> solve s = (Returns tt, s1).
Proof. intros H. unfold solve, try_except. now rewrite H. Qed.

(** The body of [solve] once the time span and the initial condition
    have been read. *)
Lemma solve_body_good_inputs (s : GUI F) (a b : string) (t0 tf y0 : F) :
  PyStr.split "," (time_entry s) = [a; b] ->
  float_of a = Some t0 -> float_of b = Some tf ->
  float_of (ic_entry s) = Some y0 ->
  solve_body s
  = match parse_equation s with
    | (Returns (Some f), s1) =>
        match integrate f (solve_ivp_run t0 tf y0 (linspace t0 tf 1000)) with
        | Solved ts (row :: _) =>
            (Returns tt,
             set_ax (solution_axes ts row)
               (add_log [EvSolveIvp t0 tf y0; EvDraw] s1))
        | Solved ts [] =>
            (Raises no_row, set_ax cleared (add_log [EvSolveIvp t0 tf y0] s1))
        | LibFailed e => (Raises e, add_log [EvSolveIvp t0 tf y0] s1)
        | RhsFailed e =>
            (Raises no_show_error,
             add_log [EvSolveIvp t0 tf y0; EvExcept "Evaluation error" e] s1)
        end
    | (Returns None, s1) => (Returns tt, s1)
    | (Raises e, s1) => (Raises e, s1)
    end.
Proof.
  intros Hs Ha Hb Hy.
  unfold solve_body.
  unfold bind at 1. unfold gets at 1. unfold bind at 1. unfold lift at 1.
  rewrite Hs. simpl map_float. unfold float at 1 2. rewrite Ha, Hb.
  unfold bind at 1. unfold gets at 1. unfold bind at 1. unfold lift at 1.
  unfold float at 1. rewrite Hy.
  unfold bind at 1.
  destruct (parse_equation s) as [[[f|]|e] s1]; try reflexivity.
  unfold bind at 1. unfold modify at 1, emit.
  unfold bind at 1. rewrite run_integrator_integrate.
  destruct (integrate f (solve_ivp_run t0 tf y0 (linspace t0 tf 1000)))
    as [ts [|row rest]|e|e].
  - cbv beta iota delta
      [bind on_ax modify emit set_ax add_log axes_clear first_row lift
       ax log eq_entry ic_entry time_entry param_entries controls
       toplevels current_params fst snd cleared no_row].
    reflexivity.
  - cbv beta iota delta
      [bind on_ax modify emit set_ax add_log axes_legend axes_set_ylabel
       axes_set_xlabel axes_plot axes_clear first_row lift ax log eq_entry
       ic_entry time_entry param_entries controls toplevels current_params
       ax_lines ax_title ax_xlabel ax_ylabel ax_grid ax_legend fst snd
       solution_axes].
    simpl. now rewrite <- !app_assoc.
  - reflexivity.
  - now rewrite add_log_add_log.
Qed.


(** ** The inputs of Solve *)

Lemma map_float_accepted (l : list string) :
  Forall accepted l ->
  exists vs, map_float l = Returns vs /\ length vs = length l.
Proof.
  induction 1 as [|x r Hx _ IH]; simpl.
  - now exists [].
  - unfold accepted in Hx. unfold float.
    destruct (float_of x) as [v|]; [|contradiction].
    destruct IH as (vs & -> & Hl). exists (v :: vs). simpl. now rewrite Hl.
Qed.

Lemma float_accepted (x : string) :
  accepted x -> exists v, float x = Returns v.
Proof.
  unfold accepted, float. destruct (float_of x) as [v|]; [eauto|contradiction].
Qed.

Lemma map_float_first_rejected (l1 l2 : list string) (x : string) (e : exn) :
  Forall accepted l1 -> float x = Raises e ->
  map_float (l1 ++ x :: l2) = Raises e.
Proof.
  intros H Hx. induction H as [|y r Hy _ IH]; simpl.
  - now rewrite Hx.
  - destruct (float_accepted y Hy) as (v & ->). now rewrite IH.
Qed.

Lemma solve_body_map_float_raises (s : GUI F) (e : exn) :
  map_float (PyStr.split "," (time_entry s)) = Raises e ->
  solve_body s = (Raises e, s).
Proof.
  intros H. unfold solve_body.
  unfold bind at 1. unfold gets at 1. unfold bind at 1. unfold lift at 1.
  now rewrite H.
Qed.

Lemma solve_body_wrong_count (s : GUI F) (vs : list F) :
  map_float (PyStr.split "," (time_entry s)) = Returns vs ->
  length vs <> 2 ->
  solve_body s = (Raises span_error, s).
Proof.
  intros H Hl. unfold solve_body.
  unfold bind at 1. unfold gets at 1. unfold bind at 1. unfold lift at 1.
  rewrite H. destruct vs as [|t0 [|tf [|x r]]]; try reflexivity.
  now contradiction Hl.
Qed.

Lemma solve_body_bad_ic (s : GUI F) (e : exn) :
  two_numbers (time_entry s) -> float (ic_entry s) = Raises e ->
  solve_body s = (Raises e, s).
Proof.
  intros (a & b & x & y & Hs & Ha & Hb) Hic. unfold solve_body.
  unfold bind at 1. unfold gets at 1. unfold bind at 1. unfold lift at 1.
  rewrite Hs. simpl map_float. unfold float at 1 2. rewrite Ha, Hb.
  unfold bind at 1. unfold gets at 1. unfold bind at 1. unfold lift at 1.
  now rewrite Hic.
Qed.

Lemma float_raises_input_error (x : string) (e : exn) :
  float x = Raises e -> solve_clause e = "Input error".
Proof.
  intros H. apply float_spec in H. destruct H as [H _].
  unfold solve_clause. now rewrite H.
Qed.

(** X6: An initial condition that [float] rejects, under a good time span, is
    an input error: the [except ValueError] clause is entered with the very
    exception [float] raised on that text, the parser is not called (no
    [sympify] in the log), nothing is integrated and the axes stay as they
    were. *)
Theorem solve_rejects_bad_initial_condition (s : GUI F) (e : exn) :
  two_numbers (time_entry s) ->
  float (ic_entry s) = Raises e ->
  log (snd (press CmdSolve s)) = (log s ++ [EvExcept "Input error" e])%list /\
  ax (snd (press CmdSolve s)) = ax s /\
  ivp_calls (snd (press CmdSolve s)) = ivp_calls s.
Proof.
  intros Ht Hic. simpl.
  rewrite (solve_raises _ _ _ (solve_body_bad_ic s e Ht Hic)). cbn [snd].
  rewrite (float_raises_input_error _ _ Hic).
  split; [reflexivity|]. split; [reflexivity|].
  rewrite ivp_calls_add_log. simpl. lia.
Qed.

(** X7: When every comma-separated piece of the time span is a number but
    there are not exactly two of them, the error is the program's own
    "Time span must contain exactly two numbers". *)
Theorem solve_time_span_wrong_count (s : GUI F) :
  Forall accepted (PyStr.split "," (time_entry s)) ->
  length (PyStr.split "," (time_entry s)) <> 2 ->
  solve_body s = (Raises span_error, s) /\
  log (snd (press CmdSolve s))
  = (log s ++ [EvExcept "Input error" span_error])%list /\
  ax (snd (press CmdSolve s)) = ax s.
Proof.
  intros Hall Hlen.
  destruct (map_float_accepted _ Hall) as (vs & Hm & Hl).
  assert (Hb : solve_body s = (Raises span_error, s)).
  { apply (solve_body_wrong_count s vs Hm). now rewrite Hl. }
  split; [exact Hb|]. simpl. rewrite (solve_raises _ _ _ Hb). now split.
Qed.

(** X8: The conversion of the pieces comes before the count: the first piece
    of the time span that [float] rejects decides the error, however many
    pieces there are: the body of [solve] ends with the exception [float]
    raised on that piece, and the [except ValueError] clause gets it. *)
Theorem solve_time_span_first_rejected_piece
  (s : GUI F) (l1 l2 : list string) (x : string) (e : exn) :
  PyStr.split "," (time_entry s) = (l1 ++ x :: l2)%list ->
  Forall accepted l1 ->
  float x = Raises e ->
  solve_body s = (Raises e, s) /\
  log (snd (press CmdSolve s)) = (log s ++ [EvExcept "Input error" e])%list.
Proof.
  intros Hs Hall Hx.
  assert (Hb : solve_body s = (Raises e, s)).
  { apply solve_body_map_float_raises. rewrite Hs.
    now apply map_float_first_rejected. }
  split; [exact Hb|]. simpl. rewrite (solve_raises _ _ _ Hb).
  now rewrite (float_raises_input_error _ _ Hx).
Qed.

(** X9: A time span is accepted only with exactly one comma in it: with none,
    or with two or more, Solve ends in the input-error clause. *)
Theorem solve_time_span_needs_one_comma (s : GUI F) :
  PyStr.count "," (time_entry s) <> 1 ->
  exists e,
    is_ValueError e = true /\
    log (snd (press CmdSolve s)) = (log s ++ [EvExcept "Input error" e])%list /\
    ax (snd (press CmdSolve s)) = ax s.
Proof.
  intros Hc.
  assert (Hn : ~ two_numbers (time_entry s)).
  { intros (a & b & x & y & Hs & _). apply Hc.
    pose proof (split_length "," (time_entry s)) as Hl.
    rewrite Hs in Hl. simpl in Hl. lia. }
  destruct (solve_time_span_error s Hn) as (e & He & _ & Hs).
  exists e. simpl. rewrite Hs. now repeat split.
Qed.


(** ** The parser, step by step *)

Lemma parse_equation_body_spec (s : GUI F) (rhs : string) :
  PyStr.contains "=" (eq_entry s) = true ->
  rhs_of (eq_entry s) = Returns rhs ->
  parse_equation_body s
  = match sympify rhs (map fst (param_entries s)) with
    | Raises e => (Raises e, add_log [EvSympify rhs] s)
    | Returns expr =>
        match param_values (param_entries s) with
        | Raises e => (Raises e, add_log [EvSympify rhs] s)
        | Returns pv =>
            (Returns (lambdify (subs pv expr)), add_log [EvSympify rhs] s)
        end
    end.
Proof.
  intros Hc Hr. unfold parse_equation_body.
  unfold bind at 1. unfold gets at 1. unfold bind at 1.
  rewrite Hc. simpl.
  unfold bind at 1. unfold lift at 1. rewrite Hr.
  unfold bind, gets, modify, lift, ret, emit. simpl.
  destruct (sympify rhs (map fst (param_entries s))) as [expr|e];
    [|reflexivity].
  destruct (param_values (param_entries s)) as [pv|e]; reflexivity.
Qed.

Lemma parse_equation_spec (s : GUI F) (rhs : string) :
  PyStr.contains "=" (eq_entry s) = true ->
  rhs_of (eq_entry s) = Returns rhs ->
  parse_equation s
  = match sympify rhs (map fst (param_entries s)) with
    | Raises e =>
        (Raises no_show_error,
         add_log [EvSympify rhs; EvExcept "Equation parsing error" e] s)
    | Returns expr =>
        match param_values (param_entries s) with
        | Raises e =>
            (Raises no_show_error,
             add_log [EvSympify rhs; EvExcept "Equation parsing error" e] s)
        | Returns pv =>
            (Returns (Some (lambdify (subs pv expr))),
             add_log [EvSympify rhs] s)
        end
    end.
Proof.
  intros Hc Hr.
  unfold parse_equation, try_except. unfold bind at 1.
  rewrite (parse_equation_body_spec s rhs Hc Hr).
  destruct (sympify rhs (map fst (param_entries s))) as [expr|e].
  - destruct (param_values (param_entries s)) as [pv|e].
    + reflexivity.
    + unfold bind, modify, emit. rewrite show_error_raises.
      now rewrite add_log_add_log.
  - unfold bind, modify, emit. rewrite show_error_raises.
    now rewrite add_log_add_log.
Qed.

Lemma parse_equation_returns (s s' : GUI F) (f : Callable F) :
  parse_equation s = (Returns (Some f), s') ->
  exists rhs expr pv,
    rhs_of (eq_entry s) = Returns rhs /\
    sympify rhs (map fst (param_entries s)) = Returns expr /\
    param_values (param_entries s) = Returns pv /\
    f = lambdify (subs pv expr) /\
    s' = add_log [EvSympify rhs] s.
Proof.
  intros H.
  destruct (PyStr.contains "=" (eq_entry s)) eqn:Hc.
  2:{ rewrite (parse_equation_no_eq s Hc) in H. discriminate. }
  destruct (rhs_of_defined _ Hc) as (r & Hr).
  rewrite (parse_equation_spec s _ Hc Hr) in H.
  destruct (sympify _ (map fst (param_entries s))) as [expr|e] eqn:Hs;
    [|discriminate].
  destruct (param_values (param_entries s)) as [pv|e] eqn:Hp; [|discriminate].
  injection H as <- <-. eexists _, expr, pv. repeat split; eauto.
Qed.

(** ** Every way through Solve *)

Lemma solve_shape (s : GUI F) :
  (exists l,
      filter is_ivp l = [] /\
      solve s = (Raises no_show_error, add_log l s) /\
      (two_numbers (time_entry s) -> accepted (ic_entry s) ->
       no_callable (fst (parse_equation s)))) \/
  (exists a b t0 tf y0 f rhs,
      PyStr.split "," (time_entry s) = [a; b] /\
      float_of a = Some t0 /\ float_of b = Some tf /\
      float_of (ic_entry s) = Some y0 /\
      parse_equation s = (Returns (Some f), add_log [EvSympify rhs] s) /\
      solve s
      = match integrate f (solve_ivp_run t0 tf y0 (linspace t0 tf 1000)) with
        | Solved ts (row :: _) =>
            (Returns tt,
             set_ax (solution_axes ts row)
               (add_log [EvSympify rhs; EvSolveIvp t0 tf y0; EvDraw] s))
        | Solved ts [] =>
            (Raises no_show_error,
             set_ax cleared
               (add_log [EvSympify rhs; EvSolveIvp t0 tf y0;
                         EvExcept "Solution error" no_row] s))
        | LibFailed e =>
            (Raises no_show_error,
             add_log [EvSympify rhs; EvSolveIvp t0 tf y0;
                      EvExcept (solve_clause e) e] s)
        | RhsFailed e =>
            (Raises no_show_error,
             add_log [EvSympify rhs; EvSolveIvp t0 tf y0;
                      EvExcept "Evaluation error" e;
                      EvExcept "Solution error" no_show_error] s)
        end).
Proof.
  destruct (map_float (PyStr.split "," (time_entry s))) as [vs|e] eqn:Hm.
  2:{ left. eexists. split; [|split].
      2: exact (solve_raises _ _ _ (solve_body_map_float_raises s e Hm)).
      - reflexivity.
      - intros Ht. apply two_numbers_map_float in Ht.
        destruct Ht as (x & y & Ht). rewrite Ht in Hm. discriminate. }
  destruct (Nat.eq_dec (length vs) 2) as [Hl|Hl].
  2:{ left. eexists. split; [|split].
      2: exact (solve_raises _ _ _ (solve_body_wrong_count s vs Hm Hl)).
      - reflexivity.
      - intros Ht. apply two_numbers_map_float in Ht.
        destruct Ht as (x & y & Ht). rewrite Ht in Hm.
        injection Hm as <-. now contradiction Hl. }
  destruct vs as [|t0 [|tf [|x r]]]; try discriminate. clear Hl.
  pose proof (map_float_returns _ _ Hm) as H2.
  inversion H2 as [|a ? l1 ? Ha H1 E1]; subst.
  inversion H1 as [|b ? l2 ? Hb H0 E2]; subst.
  inversion H0; subst.
  match goal with E : _ = PyStr.split _ _ |- _ => symmetry in E; rename E into Hs end.
  destruct (float_of (ic_entry s)) as [y0|] eqn:Hy.
  2:{ left. eexists. split; [|split].
      2:{ apply solve_raises.
          apply (solve_body_bad_ic s (conversion_error (ic_entry s))).
          - now exists a, b, t0, tf.
          - unfold float. now rewrite Hy. }
      - reflexivity.
      - unfold accepted. intros _ Hacc. contradiction. }
  pose proof (solve_body_good_inputs s a b t0 tf y0 Hs Ha Hb Hy) as Hbody.
  destruct (parse_equation_cases s) as [(f & rhs & Hp)|(e & l & Hp & Hl)];
    rewrite Hp in Hbody.
  2:{ left. eexists. split; [|split].
      2:{ rewrite (solve_raises _ _ _ Hbody), add_log_add_log. reflexivity. }
      - rewrite !filter_app, Hl. reflexivity.
      - intros _ _. rewrite Hp. exact I. }
  right. exists a, b, t0, tf, y0, f, rhs. repeat split; auto.
  destruct (integrate f (solve_ivp_run t0 tf y0 (linspace t0 tf 1000)))
    as [ts [|row rest]|e|e].
  - rewrite (solve_raises _ _ _ Hbody).
    now rewrite add_log_add_log, set_ax_add_log.
  - rewrite (solve_returns _ _ Hbody). now rewrite add_log_add_log.
  - rewrite (solve_raises _ _ _ Hbody). now rewrite !add_log_add_log.
  - rewrite (solve_raises _ _ _ Hbody). now rewrite !add_log_add_log.
Qed.


(** What the hypotheses shared by the next three theorems give. *)
Lemma solve_good_inputs_shape
  (s s1 : GUI F) (a b : string) (t0 tf y0 : F) (f : Callable F) :
  PyStr.split "," (time_entry s) = [a; b] ->
  float_of a = Some t0 -> float_of b = Some tf ->
  float_of (ic_entry s) = Some y0 ->
  parse_equation s = (Returns (Some f), s1) ->
  exists rhs,
    solve s
    = match integrate f (solve_ivp_run t0 tf y0 (linspace t0 tf 1000)) with
      | Solved ts (row :: _) =>
          (Returns tt,
           set_ax (solution_axes ts row)
             (add_log [EvSympify rhs; EvSolveIvp t0 tf y0; EvDraw] s))
      | Solved ts [] =>
          (Raises no_show_error,
           set_ax cleared
             (add_log [EvSympify rhs; EvSolveIvp t0 tf y0;
                       EvExcept "Solution error" no_row] s))
      | LibFailed e =>
          (Raises no_show_error,
           add_log [EvSympify rhs; EvSolveIvp t0 tf y0;
                    EvExcept (solve_clause e) e] s)
      | RhsFailed e =>
          (Raises no_show_error,
           add_log [EvSympify rhs; EvSolveIvp t0 tf y0;
                    EvExcept "Evaluation error" e;
                    EvExcept "Solution error" no_show_error] s)
      end.
Proof.
  intros Hs Ha Hb Hy Hp.
  destruct (solve_shape s)
    as [(l & _ & _ & Hn)
       |(a' & b' & t0' & tf' & y0' & f' & rhs & Hs' & Ha' & Hb' & Hy' & Hp' & H)].
  - exfalso. rewrite Hp in Hn. apply Hn.
    + now exists a, b, t0, tf.
    + unfold accepted. congruence.
  - rewrite Hs in Hs'. injection Hs' as <- <-.
    assert (t0' = t0) by congruence. assert (tf' = tf) by congruence.
    assert (y0' = y0) by congruence. assert (f' = f) by congruence.
    subst. now exists rhs.
Qed.

(** X10: With a time span of two numbers, a numeric initial condition and
    a callable from the parser, Solve calls the integrator once, on that
    span, that initial value and 1000 points of [linspace]; when the
    integrator returns a result whose [y] has a first row, Solve returns
    too and the axes hold [sol.t] against that row as their only curve,
    whatever was drawn before. *)
Theorem solve_plots_what_the_integrator_returns
  (s s1 : GUI F) (a b : string) (t0 tf y0 : F) (f : Callable F)
  (ts row : list F) (rest : list (list F)) :
  PyStr.split "," (time_entry s) = [a; b] ->
  float_of a = Some t0 -> float_of b = Some tf ->
  float_of (ic_entry s) = Some y0 ->
  parse_equation s = (Returns (Some f), s1) ->
  integrate f (solve_ivp_run t0 tf y0 (linspace t0 tf 1000))
  = Solved ts (row :: rest) ->
  fst (press CmdSolve s) = Returns tt /\
  ax (snd (press CmdSolve s)) = solution_axes ts row /\
  exists rhs,
    log (snd (press CmdSolve s))
    = (log s ++ [EvSympify rhs; EvSolveIvp t0 tf y0; EvDraw])%list.
Proof.
  intros Hs Ha Hb Hy Hp Hi.
  destruct (solve_good_inputs_shape s s1 a b t0 tf y0 f Hs Ha Hb Hy Hp)
    as (rhs & H).
  rewrite Hi in H. simpl press. rewrite H. cbn [fst snd].
  split; [reflexivity|]. split; [reflexivity|]. now exists rhs.
Qed.

(** X23: When the integrator returns a result with no output point, so
    that [sol.y] is empty, [sol.y[0]] fails after [ax.clear()] has run:
    Solve does not return normally, the exception enters the
    solution-error clause, and the chart is left cleared, without curve,
    title, labels, legend or grid. *)
Theorem solve_wipes_chart_on_empty_result
  (s s1 : GUI F) (a b : string) (t0 tf y0 : F) (f : Callable F)
  (ts : list F) :
  PyStr.split "," (time_entry s) = [a; b] ->
  float_of a = Some t0 -> float_of b = Some tf ->
  float_of (ic_entry s) = Some y0 ->
  parse_equation s = (Returns (Some f), s1) ->
  integrate f (solve_ivp_run t0 tf y0 (linspace t0 tf 1000)) = Solved ts [] ->
  fst (press CmdSolve s) <> Returns tt /\
  ax (snd (press CmdSolve s)) = cleared /\
  exists rhs msg,
    log (snd (press CmdSolve s))
    = (log s ++ [EvSympify rhs; EvSolveIvp t0 tf y0;
                 EvExcept "Solution error" (IndexError msg)])%list.
Proof.
  intros Hs Ha Hb Hy Hp Hi.
  destruct (solve_good_inputs_shape s s1 a b t0 tf y0 f Hs Ha Hb Hy Hp)
    as (rhs & H).
  rewrite Hi in H. simpl press. rewrite H. cbn [fst snd].
  split; [discriminate|]. split; [reflexivity|]. eexists rhs, _. reflexivity.
Qed.

(** X11: An exception that [solve_ivp] raises on its own account is caught by
    the clause for its class: a [ValueError] of the library enters the
    input-error clause, like a mistyped field, every other exception the
    solution-error clause; the axes are not touched. *)
Theorem solve_routes_library_error_by_class
  (s s1 : GUI F) (a b : string) (t0 tf y0 : F) (f : Callable F) (e : exn) :
  PyStr.split "," (time_entry s) = [a; b] ->
  float_of a = Some t0 -> float_of b = Some tf ->
  float_of (ic_entry s) = Some y0 ->
  parse_equation s = (Returns (Some f), s1) ->
  integrate f (solve_ivp_run t0 tf y0 (linspace t0 tf 1000)) = LibFailed e ->
  ax (snd (press CmdSolve s)) = ax s /\
  exists rhs,
    log (snd (press CmdSolve s))
    = (log s ++ [EvSympify rhs; EvSolveIvp t0 tf y0;
                 EvExcept (if is_ValueError e
                           then "Input error" else "Solution error") e])%list.
Proof.
  intros Hs Ha Hb Hy Hp Hi.
  destruct (solve_good_inputs_shape s s1 a b t0 tf y0 f Hs Ha Hb Hy Hp)
    as (rhs & H).
  rewrite Hi in H. simpl press. rewrite H. cbn [fst snd].
  split; [reflexivity|]. now exists rhs.
Qed.

(** X12: When an evaluation of the right-hand side raises, integration stops
    at that evaluation: the handler of [ode_func] is entered once, with
    that exception, Solve does not return normally and the axes are not
    touched. *)
Theorem solve_stops_at_first_rhs_error
  (s s1 : GUI F) (a b : string) (t0 tf y0 : F) (f : Callable F) (e : exn) :
  PyStr.split "," (time_entry s) = [a; b] ->
  float_of a = Some t0 -> float_of b = Some tf ->
  float_of (ic_entry s) = Some y0 ->
  parse_equation s = (Returns (Some f), s1) ->
  integrate f (solve_ivp_run t0 tf y0 (linspace t0 tf 1000)) = RhsFailed e ->
  fst (press CmdSolve s) <> Returns tt /\
  ax (snd (press CmdSolve s)) = ax s /\
  exists rhs rest,
    log (snd (press CmdSolve s))
    = (log s ++ EvSympify rhs :: EvSolveIvp t0 tf y0
             :: EvExcept "Evaluation error" e :: rest)%list /\
    filter (fun ev => match ev with
                      | EvExcept "Evaluation error" _ => true
                      | _ => false
                      end) rest = [].
Proof.
  intros Hs Ha Hb Hy Hp Hi.
  destruct (solve_good_inputs_shape s s1 a b t0 tf y0 f Hs Ha Hb Hy Hp)
    as (rhs & H).
  rewrite Hi in H. simpl press. rewrite H. cbn [fst snd].
  split; [discriminate|]. split; [reflexivity|].
  eexists rhs, _. split; reflexivity.
Qed.

(** X13: One press of Solve calls [solve_ivp] at most once, and it does so
    only when the time span holds two numbers, the initial condition is a
    number and the parser has handed back a callable. *)
Theorem solve_integrates_at_most_once (s : GUI F) :
  ivp_calls (snd (press CmdSolve s)) <= ivp_calls s + 1 /\
  (ivp_calls (snd (press CmdSolve s)) = ivp_calls s + 1 <->
   two_numbers (time_entry s) /\ accepted (ic_entry s) /\
   exists f s1, parse_equation s = (Returns (Some f), s1)).
Proof.
  simpl press.
  destruct (solve_shape s)
    as [(l & Hl & H & Hn)
       |(a & b & t0 & tf & y0 & f & rhs & Hs & Ha & Hb & Hy & Hp & H)].
  - rewrite H. cbn [snd]. rewrite ivp_calls_add_log, Hl. simpl.
    split; [lia|]. split; [lia|].
    intros (Ht & Hacc & f & s1 & Hp). exfalso.
    specialize (Hn Ht Hacc). now rewrite Hp in Hn.
  - assert (Hcalls : ivp_calls (snd (solve s)) = ivp_calls s + 1).
    { rewrite H.
      destruct (integrate f (solve_ivp_run t0 tf y0 (linspace t0 tf 1000)))
        as [ts [|row rest]|e|e];
        cbn [snd]; unfold ivp_calls; simpl;
        rewrite filter_app, length_app; simpl; lia. }
    rewrite Hcalls. split; [lia|]. split; [|reflexivity].
    intros _. split; [now exists a, b, t0, tf|].
    split; [unfold accepted; congruence|]. eauto.
Qed.

(** X14: When the parser hands back no callable, for whatever reason, Solve
    integrates nothing and leaves the axes as they were. *)
Theorem parse_failure_stops_solve (s : GUI F) :
  no_callable (fst (parse_equation s)) ->
  ivp_calls (snd (press CmdSolve s)) = ivp_calls s /\
  ax (snd (press CmdSolve s)) = ax s.
Proof.
  intros Hn. simpl press.
  destruct (solve_shape s)
    as [(l & Hl & H & _)
       |(a & b & t0 & tf & y0 & f & rhs & _ & _ & _ & _ & Hp & _)].
  - rewrite H. cbn [snd]. rewrite ivp_calls_add_log, Hl. simpl.
    split; [lia|reflexivity].
  - rewrite Hp in Hn. contradiction.
Qed.

(** X15: Whatever sympify raises on the right-hand side, of whatever class,
    the handler of the parser is entered with it and the caller gets no
    callable. *)
Theorem sympify_failure_reaches_parser_handler
  (s : GUI F) (rhs : string) (e : exn) :
  PyStr.contains "=" (eq_entry s) = true ->
  rhs_of (eq_entry s) = Returns rhs ->
  sympify rhs (map fst (param_entries s)) = Raises e ->
  no_callable (fst (parse_equation s)) /\
  log (snd (parse_equation s))
  = (log s ++ [EvSympify rhs; EvExcept "Equation parsing error" e])%list.
Proof.
  intros Hc Hr Hs.
  pose proof (parse_equation_spec s rhs Hc Hr) as Hp. rewrite Hs in Hp.
  rewrite Hp. cbn [fst snd]. split; [exact I|reflexivity].
Qed.


(** ** Parameters *)

Lemma param_values_first_rejected
  (l1 l2 : list (string * string)) (n x : string) (e : exn) :
  Forall (fun p => snd p = "" \/ accepted (snd p)) l1 ->
  x <> "" -> float x = Raises e ->
  param_values (l1 ++ (n, x) :: l2) = Raises e.
Proof.
  intros H Hx Hf. induction H as [|[m t] r Hm _ IH]; simpl.
  - destruct x as [|c x']; [congruence|]. simpl. now rewrite Hf.
  - simpl in Hm. destruct t as [|c t']; simpl; [exact IH|].
    destruct Hm as [Hm|Hm]; [discriminate|].
    unfold accepted in Hm. unfold float at 1.
    destruct (float_of (String c t')) as [v|]; [|contradiction].
    now rewrite IH.
Qed.

(** X16: The parameter fields are converted in the order of the dict, after
    sympify has run: the first field that is neither empty nor a number
    decides the error, the parser's handler gets the exception [float]
    raised on that field, and the later fields are not looked at. *)
Theorem parser_reports_first_bad_parameter
  (s : GUI F) (rhs : string) (expr : Expr F)
  (l1 l2 : list (string * string)) (n x : string) (e : exn) :
  PyStr.contains "=" (eq_entry s) = true ->
  rhs_of (eq_entry s) = Returns rhs ->
  sympify rhs (map fst (param_entries s)) = Returns expr ->
  param_entries s = (l1 ++ (n, x) :: l2)%list ->
  Forall (fun p => snd p = "" \/ accepted (snd p)) l1 ->
  x <> "" -> float x = Raises e ->
  no_callable (fst (parse_equation s)) /\
  log (snd (parse_equation s))
  = (log s ++ [EvSympify rhs; EvExcept "Equation parsing error" e])%list.
Proof.
  intros Hc Hr Hs He Hall Hx Hf.
  pose proof (parse_equation_spec s rhs Hc Hr) as Hp.
  rewrite Hs in Hp.
  assert (Hpv : param_values (param_entries s) = Raises e).
  { rewrite He. now apply param_values_first_rejected. }
  rewrite Hpv in Hp. rewrite Hp. cbn [fst snd].
  split; [exact I|reflexivity].
Qed.

(** ** What holds in every state the user can reach *)

Lemma press_keeps_fields (c : command) (s : GUI F) :
  eq_entry (snd (press c s)) = eq_entry s /\
  ic_entry (snd (press c s)) = ic_entry s /\
  time_entry (snd (press c s)) = time_entry s /\
  param_entries (snd (press c s)) = param_entries s /\
  current_params (snd (press c s)) = current_params s /\
  controls (snd (press c s)) = controls s.
Proof.
  destruct c; simpl press.
  - destruct (solve_cases s)
      as [(l & a & _ & H)|(r & t0 & tf & y0 & ts & ys & H)];
      rewrite H; repeat split.
  - repeat split.
  - repeat split.
  - repeat split.
  - rewrite load_example_raises. repeat split.
Qed.

(** X17: The four buttons of the main window never write to an input field:
    after Solve, Clear, Examples or Help the equation, the initial
    condition, the time span and every parameter field hold the text they
    held before, and [current_params] is still as it was. *)
Theorem control_buttons_change_no_field (c : command) (s : GUI F) :
  In c [CmdSolve; CmdClear; CmdExamples; CmdHelp] ->
  eq_entry (snd (press c s)) = eq_entry s /\
  ic_entry (snd (press c s)) = ic_entry s /\
  time_entry (snd (press c s)) = time_entry s /\
  param_entries (snd (press c s)) = param_entries s /\
  current_params (snd (press c s)) = current_params s.
Proof.
  intros _. destruct (press_keeps_fields c s) as (H1 & H2 & H3 & H4 & H5 & _).
  auto.
Qed.

Lemma set_param_keys (name v : string) (d : list (string * string)) :
  map fst (set_param name v d) = map fst d.
Proof.
  induction d as [|[k old] r IH]; simpl; [reflexivity|].
  destruct (String.eqb k name); simpl; [reflexivity|now rewrite IH].
Qed.

Lemma step_keeps_names (s : GUI F) (a : action) :
  map fst (param_entries (step s a)) = map fst (param_entries s) /\
  current_params (step s a) = current_params s.
Proof.
  destruct a as [c|v|v|v|n v|i]; simpl; try (split; reflexivity).
  - destruct (press_keeps_fields c s) as (_ & _ & _ & H4 & H5 & _).
    now rewrite H4, H5.
  - split; [apply set_param_keys|reflexivity].
Qed.

(** X18: Whatever the user types and presses after start-up, the parameters
    are [a], [b], [c] and [k], each once and in that order, and the state
    variable [current_params] is still the empty dict. *)
Theorem parameter_names_never_change (acts : list action) :
  map fst (param_entries (run init acts)) = ["a"; "b"; "c"; "k"] /\
  NoDup (map fst (param_entries (run init acts))) /\
  current_params (run init acts) = [].
Proof.
  assert (H : forall (s : GUI F),
             map fst (param_entries (run s acts)) = map fst (param_entries s) /\
             current_params (run s acts) = current_params s).
  { induction acts as [|a r IH]; intros s; simpl; [now split|].
    destruct (IH (step s a)) as [H1 H2].
    destruct (step_keeps_names s a) as [H3 H4].
    split; congruence. }
  destruct (H init) as [H1 H2]. rewrite H1, H2. simpl.
  split; [reflexivity|]. split; [|reflexivity].
  repeat constructor; simpl; intuition discriminate.
Qed.

Lemma step_keeps_chart (s : GUI F) (a : action) :
  chart (ax s) -> chart (ax (step s a)).
Proof.
  intros H. destruct a as [c|v|v|v|n v|i]; simpl; try exact H.
  destruct c; simpl press.
  - destruct (solve_cases s)
      as [(l & a & [->| ->] & Hs)|(r & t0 & tf & y0 & ts & ys & Hs)];
      rewrite Hs; simpl; [exact H|right; now left|].
    right; right. now exists ts, ys.
  - left. reflexivity.
  - exact H.
  - exact H.
  - rewrite load_example_raises. exact H.
Qed.

(** X19: Whatever the user types, presses and closes after start-up, the
    chart is in one of three shapes: the titled, gridded, empty chart of
    start-up and Clear; the bare chart that [ax.clear()] leaves when Solve
    fails after it (no title, no grid, no labels, no curve); or the chart
    of the last Solve that returned, with its labels, its legend and that
    one curve.  So no more than one curve is ever shown. *)
Theorem chart_is_blank_or_last_solution (acts : list action) :
  (ax (run init acts) = titled_blank \/
   ax (run init acts) = cleared \/
   exists ts ys, ax (run init acts) = solution_axes ts ys) /\
  length (ax_lines (ax (run init acts))) <= 1.
Proof.
  assert (H : forall (s : GUI F), chart (ax s) -> chart (ax (run s acts))).
  { induction acts as [|a r IH]; intros s Hs; simpl; [exact Hs|].
    apply IH. now apply step_keeps_chart. }
  assert (Hc : chart (ax (run init acts))) by (apply H; left; reflexivity).
  split; [exact Hc|].
  destruct Hc as [->|[->|(ts & ys & ->)]]; simpl; lia.
Qed.

Lemma solve_ivp_calls_le (s : GUI F) :
  ivp_calls (snd (solve s)) <= ivp_calls s + 1.
Proof.
  destruct (solve_shape s)
    as [(l & Hl & H & _)
       |(a & b & t0 & tf & y0 & f & rhs & _ & _ & _ & _ & _ & H)]; rewrite H.
  - cbn [snd]. rewrite ivp_calls_add_log, Hl. simpl. lia.
  - destruct (integrate f (solve_ivp_run t0 tf y0 (linspace t0 tf 1000)))
      as [ts [|row rest]|e|e];
      cbn [snd]; unfold ivp_calls; simpl;
      rewrite filter_app, length_app; simpl; lia.
Qed.

Lemma step_ivp_calls (s : GUI F) (a : action) :
  ivp_calls (step s a)
  <= ivp_calls s + (if is_solve_press a then 1 else 0).
Proof.
  destruct a as [c|v|v|v|n v|i]; simpl;
    try (unfold ivp_calls; simpl; lia).
  destruct c; simpl press.
  - apply solve_ivp_calls_le.
  - unfold clear_plot, bind, on_ax, modify, emit. simpl.
    unfold ivp_calls. simpl. rewrite filter_app, length_app. simpl. lia.
  - unfold show_examples, modify, ivp_calls. simpl. lia.
  - unfold show_help, modify, ivp_calls. simpl. lia.
  - rewrite load_example_raises. simpl. lia.
Qed.


(** X20: Integration is started by Solve alone: over any sequence of actions
    the number of [solve_ivp] calls grows by at most the number of presses
    of Solve in it. *)
Theorem integrations_bounded_by_solve_presses (s : GUI F) (acts : list action) :
  ivp_calls (run s acts) <= ivp_calls s + length (filter is_solve_press acts).
Proof.
  revert s. induction acts as [|a r IH]; intros s; simpl; [lia|].
  specialize (IH (step s a)). pose proof (step_ivp_calls s a) as Hs.
  destruct (is_solve_press a); simpl; lia.
Qed.


Lemma press_toplevels (c : command) (s : GUI F) :
  exists new,
    toplevels (snd (press c s)) = (toplevels s ++ new)%list /\
    length new = if is_window_press (Press c) then 1 else 0.
Proof.
  destruct c; simpl press; simpl is_window_press.
  - exists []. rewrite app_nil_r.
    destruct (solve_cases s)
      as [(l & a & _ & H)|(r & t0 & tf & y0 & ts & ys & H)];
      rewrite H; now split.
  - exists []. rewrite app_nil_r. now split.
  - eexists. unfold show_examples, modify. simpl. split; reflexivity.
  - eexists. unfold show_help, modify. simpl. split; reflexivity.
  - exists []. rewrite app_nil_r, load_example_raises. now split.
Qed.

Lemma remove_nth_length {A} (i : nat) (l : list A) :
  length (remove_nth i l) <= length l <= length (remove_nth i l) + 1.
Proof.
  revert i. induction l as [|x r IH]; intros [|j]; simpl; try lia.
  specialize (IH j). lia.
Qed.

Lemma step_toplevels (s : GUI F) (a : action) :
  length (toplevels s) + (if is_window_press a then 1 else 0)
  <= length (toplevels (step s a)) + (if is_close a then 1 else 0) /\
  length (toplevels (step s a))
  <= length (toplevels s) + (if is_window_press a then 1 else 0).
Proof.
  destruct a as [c|v|v|v|n v|i]; try (simpl; lia).
  - destruct (press_toplevels c s) as (new & Hn & Hl).
    cbn [step is_close]. rewrite Hn, length_app, Hl. lia.
  - cbn [step is_window_press is_close]. simpl toplevels.
    pose proof (remove_nth_length i (toplevels s)). lia.
Qed.

(** X21: No callback closes or reuses a window.  A press of Examples or Help
    puts one new window after those that are open, also when such a window
    is open already, and every other press leaves the windows as they are.
    Over a sequence of actions the number of windows is therefore at most
    the number at the start plus the presses of Examples and Help, and falls
    short of that by no more than the number of windows the user closed. *)
Theorem windows_accumulate (s : GUI F) (acts : list action) :
  (forall c, exists new,
      toplevels (snd (press c s)) = (toplevels s ++ new)%list /\
      length new = if is_window_press (Press c) then 1 else 0) /\
  length (toplevels s) + length (filter is_window_press acts)
  <= length (toplevels (run s acts)) + length (filter is_close acts) /\
  length (toplevels (run s acts))
  <= length (toplevels s) + length (filter is_window_press acts).
Proof.
  split; [intros c; apply press_toplevels|].
  revert s. induction acts as [|a r IH]; intros s; simpl; [lia|].
  specialize (IH (step s a)). pose proof (step_toplevels s a) as Hs.
  destruct (is_window_press a), (is_close a); simpl; lia.
Qed.

(** X22: In the window that Examples opens, in whatever state, the button of
    each preset carries that preset's own equation, parameter values,
    initial condition and time span, and not those of the last preset of
    the loop. *)
Theorem preset_buttons_carry_own_preset
  (s : GUI F) (name eq : string) (p : list (string * string)) (i t : string) :
  In (name, eq, p, i, t) examples ->
  fst (press CmdExamples s) = Returns tt /\
  last_window_button name (snd (press CmdExamples s))
  = Some (CmdLoadExample eq p i t).
Proof.
  intros Hin. split; [reflexivity|].
  unfold last_window_button. simpl press.
  unfold show_examples, modify. simpl toplevels.
  rewrite rev_app_distr. simpl rev. cbn [app].
  simpl in Hin.
  destruct Hin as [H|[H|[H|[H|[]]]]]; injection H as <- <- <- <- <-;
    reflexivity.
Qed.

End MoreFacts.

(** * More runs on the reference instance *)

Lemma rhs_of_between_first_and_next_equals_witness :
  exists r,
    PyStr.after_first "=" "dy/dt = -a*y = 0" = Some r /\
    rhs_of "dy/dt = -a*y = 0" = Returns (PyStr.strip (first_piece "=" r)).
Proof.
  apply (rhs_of_between_first_and_next_equals "dy/dt = -a*y = 0").
  reflexivity.
Defined.

Lemma rhs_of_is_stripped_witness :
  PyStr.strip "-a*y" = "-a*y" /\ starts_clean "-a*y".
Proof.
  apply (rhs_of_is_stripped "dy/dt  =   -a*y  " "-a*y"). reflexivity.
Defined.

Lemma solve_rejects_bad_initial_condition_witness :
  log (snd (press CmdSolve (run start [TypeIc "one"])))
  = (log (run start [TypeIc "one"])
     ++ [EvExcept "Input error" (conversion_error "one")])%list /\
  ax (snd (press CmdSolve (run start [TypeIc "one"])))
  = ax (run start [TypeIc "one"]) /\
  ivp_calls (snd (press CmdSolve (run start [TypeIc "one"])))
  = ivp_calls (run start [TypeIc "one"]).
Proof.
  apply (solve_rejects_bad_initial_condition
           (run start [TypeIc "one"]) (conversion_error "one")).
  - exists "0", " 10", 0%Z, 10000000%Z. repeat split.
  - reflexivity.
Defined.

Lemma solve_time_span_wrong_count_witness :
  solve_body (run start [TypeTime "0, 5, 10"])
  = (Raises span_error, run start [TypeTime "0, 5, 10"]) /\
  log (snd (press CmdSolve (run start [TypeTime "0, 5, 10"])))
  = (log (run start [TypeTime "0, 5, 10"])
     ++ [EvExcept "Input error" span_error])%list /\
  ax (snd (press CmdSolve (run start [TypeTime "0, 5, 10"])))
  = ax (run start [TypeTime "0, 5, 10"]).
Proof.
  apply (solve_time_span_wrong_count (run start [TypeTime "0, 5, 10"])).
  - repeat constructor; discriminate.
  - simpl. discriminate.
Defined.

Lemma solve_time_span_first_rejected_piece_witness :
  solve_body (run start [TypeTime "0, x, 10, y"])
  = (Raises (conversion_error " x"), run start [TypeTime "0, x, 10, y"]) /\
  log (snd (press CmdSolve (run start [TypeTime "0, x, 10, y"])))
  = (log (run start [TypeTime "0, x, 10, y"])
     ++ [EvExcept "Input error" (conversion_error " x")])%list.
Proof.
  apply (solve_time_span_first_rejected_piece
           (run start [TypeTime "0, x, 10, y"]) ["0"] [" 10"; " y"] " x"
           (conversion_error " x")).
  - reflexivity.
  - repeat constructor; discriminate.
  - reflexivity.
Defined.

Lemma solve_time_span_needs_one_comma_witness :
  exists e,
    is_ValueError e = true /\
    log (snd (press CmdSolve (run start [TypeTime "10"])))
    = (log (run start [TypeTime "10"]) ++ [EvExcept "Input error" e])%list /\
    ax (snd (press CmdSolve (run start [TypeTime "10"])))
    = ax (run start [TypeTime "10"]).
Proof.
  apply (solve_time_span_needs_one_comma (run start [TypeTime "10"])).
  simpl. discriminate.
Defined.

Lemma solve_plots_what_the_integrator_returns_witness :
  fst (press CmdSolve st_decay) = Returns tt /\
  length (ax_lines (ax (snd (press CmdSolve st_decay)))) = 1%nat.
Proof.
  pose (f := Lambdified
               (Mul (Mul (Num (-1000000)%Z) (Num 500000%Z)) (Sym "y"))).
  pose (r := integrate f
               (solve_ivp_run 0%Z 5000000%Z 1000000%Z
                  (linspace 0%Z 5000000%Z 1000))).
  pose (ts := match r with Solved ts _ => ts | _ => [] end).
  pose (y := match r with Solved _ y => y | _ => [] end).
  destruct (solve_plots_what_the_integrator_returns
              st_decay (snd (parse_equation st_decay))
              "0" " 5" 0%Z 5000000%Z 1000000%Z f ts (hd [] y) (tl y))
    as (H1 & H2 & _); try (vm_compute; reflexivity).
  split; [exact H1|]. rewrite H2. reflexivity.
Defined.

Lemma solve_wipes_chart_on_empty_result_witness :
  fst (press CmdSolve st_empty_span) <> Returns tt /\
  ax (snd (press CmdSolve st_empty_span)) = cleared /\
  exists rhs msg,
    log (snd (press CmdSolve st_empty_span))
    = (log st_empty_span
       ++ [EvSympify rhs; EvSolveIvp 1000000%Z 1000000%Z 1000000%Z;
           EvExcept "Solution error" (IndexError msg)])%list.
Proof.
  apply (solve_wipes_chart_on_empty_result
           st_empty_span (snd (parse_equation st_empty_span))
           "1" " 1" 1000000%Z 1000000%Z 1000000%Z
           (Lambdified (Mul (Mul (Num (-1000000)%Z) (Num 500000%Z)) (Sym "y")))
           []); reflexivity.
Defined.

Lemma solve_routes_library_error_by_class_witness :
  ax (snd (press (L := strict_libs) CmdSolve (run start [TypeTime "1, 1"])))
  = ax (run start [TypeTime "1, 1"]) /\
  exists rhs,
    log (snd (press (L := strict_libs) CmdSolve (run start [TypeTime "1, 1"])))
    = (log (run start [TypeTime "1, 1"])
       ++ [EvSympify rhs; EvSolveIvp 1000000%Z 1000000%Z 1000000%Z;
           EvExcept "Input error" (ValueError "empty time span")])%list.
Proof.
  apply (solve_routes_library_error_by_class (L := strict_libs)
           (run start [TypeTime "1, 1"])
           (snd (parse_equation (L := strict_libs) (run start [TypeTime "1, 1"])))
           "1" " 1" 1000000%Z 1000000%Z 1000000%Z
           (Lambdified
              (Add (Mul (Mul (Num (-1000000)%Z) (Num 500000%Z)) (Sym "y"))
                   (App "sin" (Mul (Num 1000000%Z) (Sym "t")))))
           (ValueError "empty time span")); reflexivity.
Defined.

Lemma solve_stops_at_first_rhs_error_witness :
  fst (press CmdSolve st_unknown_function) <> Returns tt /\
  ax (snd (press CmdSolve st_unknown_function)) = ax st_unknown_function.
Proof.
  destruct (solve_stops_at_first_rhs_error
              st_unknown_function (snd (parse_equation st_unknown_function))
              "0" " 10" 0%Z 10000000%Z 1000000%Z
              (Lambdified (App "foo" (Sym "t")))
              (NameError "name 'foo' is not defined"))
    as (H1 & H2 & _); try reflexivity.
  split; [exact H1|exact H2].
Defined.

Lemma parse_failure_stops_solve_witness :
  ivp_calls (snd (press CmdSolve (run start [TypeEq "dy/dt = -a*("])))
  = ivp_calls (run start [TypeEq "dy/dt = -a*("]) /\
  ax (snd (press CmdSolve (run start [TypeEq "dy/dt = -a*("])))
  = ax (run start [TypeEq "dy/dt = -a*("]).
Proof.
  apply (parse_failure_stops_solve (run start [TypeEq "dy/dt = -a*("])).
  vm_compute. exact I.
Defined.

Lemma sympify_failure_reaches_parser_handler_witness :
  no_callable (fst (parse_equation (run start [TypeEq "dy/dt = -a*("]))) /\
  log (snd (parse_equation (run start [TypeEq "dy/dt = -a*("])))
  = (log (run start [TypeEq "dy/dt = -a*("])
     ++ [EvSympify "-a*(";
         EvExcept "Equation parsing error"
           (SympifyError "could not parse '-a*('")])%list.
Proof.
  apply (sympify_failure_reaches_parser_handler
           (run start [TypeEq "dy/dt = -a*("])); reflexivity.
Defined.

Lemma parser_reports_first_bad_parameter_witness :
  no_callable (fst (parse_equation (run start [TypeParam "b" "two"]))) /\
  log (snd (parse_equation (run start [TypeParam "b" "two"])))
  = (log (run start [TypeParam "b" "two"])
     ++ [EvSympify "-a*y + sin(b*t)";
         EvExcept "Equation parsing error" (conversion_error "two")])%list.
Proof.
  apply (parser_reports_first_bad_parameter
           (run start [TypeParam "b" "two"])
           "-a*y + sin(b*t)"
           (Add (Mul (Mul (Num (-1000000)%Z) (Sym "a")) (Sym "y"))
                (App "sin" (Mul (Sym "b") (Sym "t"))))
           [("a", "0.5")] [("c", "0.8"); ("k", "1.0")] "b" "two"
           (conversion_error "two"));
    try reflexivity.
  - constructor; [right; discriminate|constructor].
  - discriminate.
Defined.

Lemma control_buttons_change_no_field_witness :
  eq_entry (snd (press CmdSolve st_decay)) = eq_entry st_decay /\
  ic_entry (snd (press CmdSolve st_decay)) = ic_entry st_decay /\
  time_entry (snd (press CmdSolve st_decay)) = time_entry st_decay /\
  param_entries (snd (press CmdSolve st_decay)) = param_entries st_decay /\
  current_params (snd (press CmdSolve st_decay)) = current_params st_decay.
Proof.
  apply (control_buttons_change_no_field CmdSolve st_decay).
  left. reflexivity.
Defined.

Lemma preset_buttons_carry_own_preset_witness :
  fst (press CmdExamples start) = Returns tt /\
  last_window_button "Forced Oscillator" (snd (press CmdExamples start))
  = Some (CmdLoadExample "dy/dt = -k*y + sin(b*t)"
            [("k", "1.0"); ("b", "3.0")] "0.0" "0, 20").
Proof.
  apply (preset_buttons_carry_own_preset start).
  right. right. left. reflexivity.
Defined.
